(** * EAdash: the HR attrition dashboard ([app.py])

    A shallow embedding of the dataframe pipeline of [app.py]: the loader
    [load_data], the sidebar filter that builds [filtered_df], the empty-view
    guard, and the group-by transforms whose results are handed to the charts.

    Conventions.
    - A pandas [DataFrame] is a list of typed rows plus the one column the
      script adds to the view later on ([YearsAtCompany_Binned]).  Cells are
      total and typed as the data contract of the dashboard has them: text
      columns hold [string]s, numeric columns hold integers ([Z]).  Missing
      cells of the CSV and pandas' type inference are outside the model.
    - A pandas [Series] is a [list] of cells, in row order; boolean masks are
      [list bool].
    - A float64 result (a mean, a rate) is read at two levels.  [float :=
      option Q] holds the exact value of the quotient the code evaluates, in
      lowest terms, or NaN; statements on which group a line stands for, on
      bounds and on order are made there.  [Binary64] evaluates the same
      quotients in IEEE binary64 with the kernel's floats, rounding after
      the division and again after the product with 100, as pandas and
      Python do; an equation between rates that depends on the rounding is
      settled there.
    - Streamlit calls are events of a log; [st.stop()] ends the run, an
      exception that nothing catches ends it as well. *)

From Stdlib Require Import ZArith QArith Qreduction List String Ascii Bool.
From Stdlib Require Import Lia Lqa Permutation Sorted.
From Stdlib Require Floats Uint63.
Import ListNotations.

Local Open Scope string_scope.
Local Open Scope list_scope.
Local Open Scope Z_scope.

(** ** Cells, rows and frames *)

(** One line of [EA.csv] as [pd.read_csv] returns it. *)
Record Employee : Type := mkEmployee {
  Attrition : string;
  Department : string;
  JobRole : string;
  EducationField : string;
  Gender : string;
  MaritalStatus : string;
  BusinessTravel : string;
  OverTime : string;
  Education : Z;
  JobLevel : Z;
  EnvironmentSatisfaction : Z;
  JobSatisfaction : Z;
  RelationshipSatisfaction : Z;
  WorkLifeBalance : Z;
  PerformanceRating : Z;
  JobInvolvement : Z;
  Age : Z;
  MonthlyIncome : Z;
  YearsAtCompany : Z;
  YearsInCurrentRole : Z;
  NumCompaniesWorked : Z;
  YearsSinceLastPromotion : Z
}.

(** A row of the loaded frame: the CSV line and the column [load_data]
    derives from it. *)
Record Row : Type := mkRow {
  emp :> Employee;
  Attrition_Binary : Z
}.

(** [df] and [filtered_df].  [YearsAtCompany_Binned] is [None] until the
    script assigns that column; afterwards it holds one categorical cell per
    row, [None] standing for NaN. *)
Record DataFrame : Type := mkFrame {
  rows : list Row;
  YearsAtCompany_Binned : option (list (option string))
}.

(** A cell read through a column label: text or integer. *)
Inductive value : Type :=
| VStr (s : string)
| VInt (z : Z).

(** The column labels of the loaded frame. *)
Module Col.
Inductive t : Type :=
| Attrition | Department | JobRole | EducationField | Gender | MaritalStatus
| BusinessTravel | OverTime
| Education | JobLevel | EnvironmentSatisfaction | JobSatisfaction
| RelationshipSatisfaction | WorkLifeBalance | PerformanceRating
| JobInvolvement
| Age | MonthlyIncome | YearsAtCompany | YearsInCurrentRole
| NumCompaniesWorked | YearsSinceLastPromotion
| Attrition_Binary.
End Col.

Definition column_name (c : Col.t) : string :=
  match c with
  | Col.Attrition => "Attrition"
  | Col.Department => "Department"
  | Col.JobRole => "JobRole"
  | Col.EducationField => "EducationField"
  | Col.Gender => "Gender"
  | Col.MaritalStatus => "MaritalStatus"
  | Col.BusinessTravel => "BusinessTravel"
  | Col.OverTime => "OverTime"
  | Col.Education => "Education"
  | Col.JobLevel => "JobLevel"
  | Col.EnvironmentSatisfaction => "EnvironmentSatisfaction"
  | Col.JobSatisfaction => "JobSatisfaction"
  | Col.RelationshipSatisfaction => "RelationshipSatisfaction"
  | Col.WorkLifeBalance => "WorkLifeBalance"
  | Col.PerformanceRating => "PerformanceRating"
  | Col.JobInvolvement => "JobInvolvement"
  | Col.Age => "Age"
  | Col.MonthlyIncome => "MonthlyIncome"
  | Col.YearsAtCompany => "YearsAtCompany"
  | Col.YearsInCurrentRole => "YearsInCurrentRole"
  | Col.NumCompaniesWorked => "NumCompaniesWorked"
  | Col.YearsSinceLastPromotion => "YearsSinceLastPromotion"
  | Col.Attrition_Binary => "Attrition_Binary"
  end.

(** [row[c]]. *)
Definition cell (c : Col.t) (r : Row) : value :=
  match c with
  | Col.Attrition => VStr (Attrition r)
  | Col.Department => VStr (Department r)
  | Col.JobRole => VStr (JobRole r)
  | Col.EducationField => VStr (EducationField r)
  | Col.Gender => VStr (Gender r)
  | Col.MaritalStatus => VStr (MaritalStatus r)
  | Col.BusinessTravel => VStr (BusinessTravel r)
  | Col.OverTime => VStr (OverTime r)
  | Col.Education => VInt (Education r)
  | Col.JobLevel => VInt (JobLevel r)
  | Col.EnvironmentSatisfaction => VInt (EnvironmentSatisfaction r)
  | Col.JobSatisfaction => VInt (JobSatisfaction r)
  | Col.RelationshipSatisfaction => VInt (RelationshipSatisfaction r)
  | Col.WorkLifeBalance => VInt (WorkLifeBalance r)
  | Col.PerformanceRating => VInt (PerformanceRating r)
  | Col.JobInvolvement => VInt (JobInvolvement r)
  | Col.Age => VInt (Age r)
  | Col.MonthlyIncome => VInt (MonthlyIncome r)
  | Col.YearsAtCompany => VInt (YearsAtCompany r)
  | Col.YearsInCurrentRole => VInt (YearsInCurrentRole r)
  | Col.NumCompaniesWorked => VInt (NumCompaniesWorked r)
  | Col.YearsSinceLastPromotion => VInt (YearsSinceLastPromotion r)
  | Col.Attrition_Binary => VInt (Attrition_Binary r)
  end.

(** The labels of the CSV, in file order, then the derived one. *)
Definition loaded_columns : list Col.t :=
  [ Col.Attrition; Col.Department; Col.JobRole; Col.EducationField;
    Col.Gender; Col.MaritalStatus; Col.BusinessTravel; Col.OverTime;
    Col.Education; Col.JobLevel; Col.EnvironmentSatisfaction;
    Col.JobSatisfaction; Col.RelationshipSatisfaction; Col.WorkLifeBalance;
    Col.PerformanceRating; Col.JobInvolvement; Col.Age; Col.MonthlyIncome;
    Col.YearsAtCompany; Col.YearsInCurrentRole; Col.NumCompaniesWorked;
    Col.YearsSinceLastPromotion; Col.Attrition_Binary ].

(** [df.columns]: an assigned column is appended after the existing ones. *)
Definition columns (df : DataFrame) : list string :=
  map column_name loaded_columns ++
  match YearsAtCompany_Binned df with
  | Some _ => ["YearsAtCompany_Binned"]
  | None => []
  end.

(** [len(df)] and [df.empty]. *)
Definition len (df : DataFrame) : nat := List.length (rows df).

Definition empty (df : DataFrame) : bool :=
  match rows df with [] => true | _ :: _ => false end.

(** [df[c]] for a text column and for a numeric column. *)
Definition str_col (f : Employee -> string) (df : DataFrame) : list string :=
  map (fun r : Row => f r) (rows df).

Definition int_col (f : Row -> Z) (df : DataFrame) : list Z :=
  map f (rows df).

(** ** Floats *)

(** The exact value of a float64 quantity before rounding: a rational in
    lowest terms, or NaN.  The rounded value is computed in [Binary64]. *)
Definition float : Type := option Q.

Definition NaN : float := None.

(** The exact value of [x * 100]; NaN propagates. *)
Definition times100 (x : float) : float :=
  match x with
  | Some q => Some (Qred (q * 100))
  | None => None
  end.

Definition sum (xs : list Z) : Z := fold_right Z.add 0 xs.

(** The exact value of [Series.mean()] of an integer series: NaN on the
    empty series. *)
Definition mean (xs : list Z) : float :=
  match xs with
  | [] => NaN
  | _ :: _ => Some (Qred (sum xs # Pos.of_nat (List.length xs)))
  end.

(** ** The loader *)

(** What the [try] block of [load_data] gets from [pd.read_csv]: the table,
    [FileNotFoundError], or any other exception with its text. *)
Inductive read_csv_result : Type :=
| CsvTable (table : list Employee)
| FileNotFoundError
| OtherException (e : string).

(** [lambda x: 1 if x == 'Yes' else 0] *)
Definition yes_to_one (x : string) : Z :=
  if String.eqb x "Yes" then 1 else 0.

(** [df['Attrition_Binary'] = df['Attrition'].apply(...)] *)
Definition add_attrition_binary (table : list Employee) : DataFrame :=
  {| rows := map (fun e => {| emp := e; Attrition_Binary := yes_to_one (Attrition e) |}) table;
     YearsAtCompany_Binned := None |}.

(** ** The run of the script: a log of Streamlit calls *)

(** The Python exceptions the script can raise: a division by zero, a
    missing attribute of a module, [int(nan)], and a widget that refuses its
    arguments. *)
Inductive exn : Type :=
| ZeroDivisionError
| AttributeError
| ValueError
| StreamlitAPIException.

(** The three headline numbers of the first tab; [attrition_rate] is [None]
    where the page shows the text N/A. *)
Record Kpi : Type := mkKpi {
  total_employees : nat;
  attrition_count : nat;
  attrition_rate : option Q
}.

(** What an aggregation of the script hands to the page. *)
Inductive AggregationResult : Type :=
| Rates (t : list (value * float))
| BinnedRates (t : list (string * float))
| MeanIncome (t : list ((Z * string) * float))
| Counts (t : list (string * nat))
| Scalars (k : Kpi).

(** A headline number of the first tab; [KNotAvailable] is the text "N/A". *)
Inductive kpi_value : Type :=
| KCount (n : nat)
| KRate (q : Q)
| KNotAvailable.

Inductive event : Type :=
| st_error (msg : string)
| st_warning (msg : string)
| st_kpi (title : string) (v : kpi_value)
| st_plotly_chart (fig : string) (data : AggregationResult)
| st_plotly_frame (fig : string) (data : DataFrame)
| st_dataframe (data : DataFrame).

(** How a piece of the script ends: normally, by [st.stop()], or by an
    uncaught exception. *)
Inductive outcome (A : Type) : Type :=
| Done (a : A)
| Stopped
| Raised (e : exn).

Arguments Done {A} a.
Arguments Stopped {A}.
Arguments Raised {A} e.

(** A piece of the script that works on [filtered_df]: it reads and may
    rebind columns of the view, writes to the page, and may stop. *)
Definition Script (A : Type) : Type :=
  DataFrame -> list event * outcome (A * DataFrame).

Definition ret {A : Type} (a : A) : Script A :=
  fun v => ([], Done (a, v)).

Definition bind {A B : Type} (m : Script A) (k : A -> Script B) : Script B :=
  fun v =>
    match m v with
    | (log, Done (a, v')) =>
        let '(log', r) := k a v' in (log ++ log', r)
    | (log, Stopped) => (log, Stopped)
    | (log, Raised e) => (log, Raised e)
    end.

Notation "x <- m ;; k" := (bind m (fun x => k))
  (at level 61, m at next level, right associativity).
Notation "m ;; k" := (bind m (fun _ => k))
  (at level 61, right associativity).

Definition get : Script DataFrame := fun v => ([], Done (v, v)).
Definition put (v' : DataFrame) : Script unit := fun _ => ([], Done (tt, v')).
Definition emit (e : event) : Script unit := fun v => ([e], Done (tt, v)).
Definition raise {A : Type} (e : exn) : Script A := fun _ => ([], Raised e).
Definition st_stop {A : Type} : Script A := fun _ => ([], Stopped).

(** ** [load_data] *)

Definition csv_file_path : string := "EA.csv".

Definition not_found_message (file_path : string) : string :=
  String.append "Error: The file '"
    (String.append file_path
       "' was not found. Please ensure 'EA.csv' is in the same directory.").

Definition load_error_message (e : string) : string :=
  String.append "An error occurred while loading the data: " e.

(** [load_data(file_path)]; [read_csv] is the file system seen through
    [pd.read_csv]. *)
Definition load_data (read_csv : string -> read_csv_result) (file_path : string)
  : list event * outcome DataFrame :=
  match read_csv file_path with
  | CsvTable table => ([], Done (add_attrition_binary table))
  | FileNotFoundError => ([st_error (not_found_message file_path)], Stopped)
  | OtherException e => ([st_error (load_error_message e)], Stopped)
  end.

(** ** The sidebar filters *)

(** What the four multiselects and the two sliders return. *)
Record FilterCriteria : Type := mkCriteria {
  selected_attrition : list string;
  selected_department : list string;
  selected_job_role : list string;
  selected_education_field : list string;
  income_range : Z * Z;
  age_range : Z * Z
}.

(** [Series.isin(values)] *)
Definition isin (s : list string) (values : list string) : list bool :=
  map (fun x => existsb (String.eqb x) values) s.

(** [Series >= k] and [Series <= k] *)
Definition ge (s : list Z) (k : Z) : list bool := map (fun x => x >=? k) s.
Definition le (s : list Z) (k : Z) : list bool := map (fun x => x <=? k) s.

(** [a & b] on boolean series of one index. *)
Fixpoint and_ (a b : list bool) : list bool :=
  match a, b with
  | x :: a', y :: b' => (x && y) :: and_ a' b'
  | _, _ => []
  end.

(** [s[mask]]: the cells whose mask entry is [True]. *)
Fixpoint take {A : Type} (s : list A) (mask : list bool) : list A :=
  match s, mask with
  | x :: s', b :: mask' => if b then x :: take s' mask' else take s' mask'
  | _, _ => []
  end.

(** [df[mask]]: a new frame with the selected rows, every column cut alike. *)
Definition boolean_index (df : DataFrame) (mask : list bool) : DataFrame :=
  {| rows := take (rows df) mask;
     YearsAtCompany_Binned :=
       option_map (fun col => take col mask) (YearsAtCompany_Binned df) |}.

(** The mask of lines 99-108, conjunct by conjunct. *)
Definition filter_mask (df : DataFrame) (c : FilterCriteria) : list bool :=
  and_ (and_ (and_ (and_ (and_ (and_ (and_
    (isin (str_col Attrition df) (selected_attrition c))
    (isin (str_col Department df) (selected_department c)))
    (isin (str_col JobRole df) (selected_job_role c)))
    (isin (str_col EducationField df) (selected_education_field c)))
    (ge (int_col MonthlyIncome df) (fst (income_range c))))
    (le (int_col MonthlyIncome df) (snd (income_range c))))
    (ge (int_col Age df) (fst (age_range c))))
    (le (int_col Age df) (snd (age_range c))).

(** [filtered_df = df[...]] *)
Definition apply_filters (df : DataFrame) (c : FilterCriteria) : DataFrame :=
  boolean_index df (filter_mask df c).

(** [Series.unique()]: the distinct cells in order of first appearance. *)
Fixpoint unique (s : list string) : list string :=
  match s with
  | [] => []
  | x :: s' => x :: filter (fun y => negb (String.eqb x y)) (unique s')
  end.

(** [Series.min()] and [Series.max()] of a non-empty integer series. *)
Definition series_min (x : Z) (s : list Z) : Z := fold_right Z.min x s.
Definition series_max (x : Z) (s : list Z) : Z := fold_right Z.max x s.

(** The integers a widget can hand to the browser. *)
Definition js_safe (x : Z) : bool :=
  (- (2 ^ 53 - 1) <=? x) && (x <=? 2 ^ 53 - 1).

(** [st.slider(..., min_value=lo, max_value=hi, value=(lo, hi))]: the
    slider needs [lo < hi] and bounds the browser can hold, and raises
    otherwise; on a fresh session it returns its [value]. *)
Definition st_slider (lo hi : Z) : exn + (Z * Z) :=
  if (lo <? hi) && js_safe lo && js_safe hi then inr (lo, hi)
  else inl StreamlitAPIException.

(** Lines 53-96 on a fresh session: every option selected, both sliders at
    their ends.  On a frame without rows [min()] is NaN and [int(nan)]
    raises at line 81; a slider raises at line 82 or 91 when it refuses its
    bounds. *)
Definition default_criteria (df : DataFrame) : exn + FilterCriteria :=
  match rows df with
  | [] => inl ValueError
  | r :: _ =>
      match st_slider (series_min (MonthlyIncome r) (int_col MonthlyIncome df))
                      (series_max (MonthlyIncome r) (int_col MonthlyIncome df)) with
      | inl e => inl e
      | inr income =>
          match st_slider (series_min (Age r) (int_col Age df))
                          (series_max (Age r) (int_col Age df)) with
          | inl e => inl e
          | inr age =>
              inr {| selected_attrition := unique (str_col Attrition df);
                     selected_department := unique (str_col Department df);
                     selected_job_role := unique (str_col JobRole df);
                     selected_education_field := unique (str_col EducationField df);
                     income_range := income;
                     age_range := age |}
          end
      end
  end.

(** What the widgets return in a run: the defaults on a fresh session,
    afterwards the state the user has set (Streamlit keeps a selection
    within the options and a range within the bounds of the slider). *)
Definition criteria_of (session : option FilterCriteria) (defaults : FilterCriteria)
  : FilterCriteria :=
  match session with
  | Some c => c
  | None => defaults
  end.

(** The filter as the data model words it: a record belongs to the view when
    every categorical value is in its selected set and both numeric values
    are within their inclusive ranges. *)
Definition satisfies (c : FilterCriteria) (r : Row) : Prop :=
  In (Attrition r) (selected_attrition c) /\
  In (Department r) (selected_department c) /\
  In (JobRole r) (selected_job_role c) /\
  In (EducationField r) (selected_education_field c) /\
  fst (income_range c) <= MonthlyIncome r <= snd (income_range c) /\
  fst (age_range c) <= Age r <= snd (age_range c).

(** The same test as a boolean, row by row. *)
Definition passes (c : FilterCriteria) (r : Row) : bool :=
  existsb (String.eqb (Attrition r)) (selected_attrition c) &&
  existsb (String.eqb (Department r)) (selected_department c) &&
  existsb (String.eqb (JobRole r)) (selected_job_role c) &&
  existsb (String.eqb (EducationField r)) (selected_education_field c) &&
  (MonthlyIncome r >=? fst (income_range c)) &&
  (MonthlyIncome r <=? snd (income_range c)) &&
  (Age r >=? fst (age_range c)) &&
  (Age r <=? snd (age_range c)).

(** ** Group-by *)

(** Order and equality of group keys.  A column holds cells of one type; a
    text key never meets an integer key, and the mixed cases below are never
    reached by the script. *)
Definition value_eqb (a b : value) : bool :=
  match a, b with
  | VStr s, VStr t => String.eqb s t
  | VInt x, VInt y => x =? y
  | _, _ => false
  end.

Definition value_leb (a b : value) : bool :=
  match a, b with
  | VStr s, VStr t => String.leb s t
  | VInt x, VInt y => x <=? y
  | VInt _, VStr _ => true
  | VStr _, VInt _ => false
  end.

(** Keys of [groupby(['Education', 'Attrition'])]: compared as tuples. *)
Definition pair_eqb (a b : Z * string) : bool :=
  (fst a =? fst b) && String.eqb (snd a) (snd b).

Definition pair_leb (a b : Z * string) : bool :=
  (fst a <? fst b) || ((fst a =? fst b) && String.leb (snd a) (snd b)).

Section GroupBy.
Context {K : Type} (eqb leb : K -> K -> bool).

(** One observation added to the running (sum, count) of its key; a new
    key opens a group behind the ones seen so far. *)
Fixpoint tally (k : K) (x : Z) (acc : list (K * (Z * nat)))
  : list (K * (Z * nat)) :=
  match acc with
  | [] => [(k, (x, 1%nat))]
  | (k', (s, n)) :: rest =>
      if eqb k k' then (k', (s + x, S n)) :: rest
      else (k', (s, n)) :: tally k x rest
  end.

(** One pass over the rows. *)
Definition tallies (obs : list (K * Z)) : list (K * (Z * nat)) :=
  fold_left (fun acc o => tally (fst o) (snd o) acc) obs [].

(** [sort=True]: the groups ordered by key. *)
Fixpoint insert_by_key {A : Type} (e : K * A) (l : list (K * A))
  : list (K * A) :=
  match l with
  | [] => [e]
  | e' :: rest =>
      if leb (fst e) (fst e') then e :: l else e' :: insert_by_key e rest
  end.

Definition sort_index {A : Type} (l : list (K * A)) : list (K * A) :=
  fold_right insert_by_key [] l.

(** [groupby(key)[target].mean().reset_index()], from the (key, target)
    pairs of the rows. *)
Definition groupby_mean (obs : list (K * Z)) : list (K * float) :=
  map (fun g => (fst g, Some (Qred (fst (snd g) # Pos.of_nat (snd (snd g))))))
      (sort_index (tallies obs)).

(** The targets of the rows that hold key [k]. *)
Definition group (k : K) (obs : list (K * Z)) : list Z :=
  map snd (filter (fun o => eqb (fst o) k) obs).
End GroupBy.

(** [t['Attrition_Rate'] = t['Attrition_Binary'] * 100], keeping the key and
    the rate that the bar chart reads. *)
Definition with_rate {K : Type} (t : list (K * float)) : list (K * float) :=
  map (fun e => (fst e, times100 (snd e))) t.

(** Rate-by-dimension for the column [c] of a frame. *)
Definition rate_by_dimension (c : Col.t) (df : DataFrame) : list (value * float) :=
  with_rate
    (groupby_mean value_eqb value_leb
       (map (fun r => (cell c r, Attrition_Binary r)) (rows df))).

(** [groupby(['Education', 'Attrition'])['MonthlyIncome'].mean()] *)
Definition avg_income_edu_attrition (df : DataFrame) : list ((Z * string) * float) :=
  groupby_mean pair_eqb pair_leb
    (map (fun r : Row => ((Education r, Attrition r), MonthlyIncome r)) (rows df)).

(** [Series.value_counts()]: occurrences per distinct cell, most frequent
    first, ties in order of first appearance. *)
Fixpoint count_up (k : string) (acc : list (string * nat)) : list (string * nat) :=
  match acc with
  | [] => [(k, 1%nat)]
  | (k', n) :: rest =>
      if String.eqb k k' then (k', S n) :: rest else (k', n) :: count_up k rest
  end.

Fixpoint insert_by_count (e : string * nat) (l : list (string * nat))
  : list (string * nat) :=
  match l with
  | [] => [e]
  | e' :: rest =>
      if (snd e' <=? snd e)%nat then e :: l else e' :: insert_by_count e rest
  end.

Definition value_counts (s : list string) : list (string * nat) :=
  fold_right insert_by_count [] (fold_left (fun acc k => count_up k acc) s []).

(** ** Binning of [YearsAtCompany] *)

Definition bins : list Z := [0; 1; 3; 5; 10; 15; 20; 30; 40].

Definition labels : list string :=
  ["<1"; "1-3"; "3-5"; "5-10"; "10-15"; "15-20"; "20-30"; "30+"].

(** [np.searchsorted(edges, x, side='right')] on sorted edges: the number of
    leading edges that are [<= x]. *)
Fixpoint searchsorted_right (edges : list Z) (x : Z) : nat :=
  match edges with
  | [] => 0%nat
  | b :: rest => if b <=? x then S (searchsorted_right rest x) else 0%nat
  end.

(** [pd.cut(x, bins=edges, labels=lbls, right=False)] on one cell: NaN when
    [x] lies left of the first edge or not left of the last one. *)
Definition cut (edges : list Z) (lbls : list string) (x : Z) : option string :=
  let id := searchsorted_right edges x in
  if ((id =? 0) || (id =? List.length edges))%nat then None
  else nth_error lbls (id - 1).

Definition pd_cut (s : list Z) (edges : list Z) (lbls : list string)
  : list (option string) :=
  map (cut edges lbls) s.

(** [df['YearsAtCompany_Binned'] = col]: binds the column in place, adding
    it when the frame has none of that label. *)
Definition assign_binned (df : DataFrame) (col : list (option string)) : DataFrame :=
  {| rows := rows df; YearsAtCompany_Binned := Some col |}.

(** [df['YearsAtCompany_Binned']] *)
Definition binned_col (df : DataFrame) : list (option string) :=
  match YearsAtCompany_Binned df with
  | Some col => col
  | None => []
  end.

(** The targets of the rows whose categorical cell is [lbl]; NaN cells
    belong to no group. *)
Definition category_group (lbl : string) (obs : list (option string * Z)) : list Z :=
  map snd
    (filter (fun o => match fst o with
                      | Some l => String.eqb l lbl
                      | None => false
                      end) obs).

Definition is_number (x : float) : bool :=
  match x with Some _ => true | None => false end.

(** [groupby(key)[target].mean().reset_index()] for a categorical key: one
    line per category, in category order.  With [observed=False] a category
    without rows keeps its line, with NaN; with [observed=True] it has none.
    Which of the two is the default depends on the pandas release. *)
Definition groupby_categorical_mean (observed : bool) (categories : list string)
    (obs : list (option string * Z)) : list (string * float) :=
  let table := map (fun lbl => (lbl, mean (category_group lbl obs))) categories in
  if observed then filter (fun e => is_number (snd e)) table else table.

(** ** The aggregations of the tabs *)

(** [Series == 'Yes'] *)
Definition eq_ (s : list string) (x : string) : list bool :=
  map (fun y => String.eqb y x) s.

(** [a / b] on Python integers. *)
Definition truediv (a b : nat) : Script Q :=
  if (b =? 0)%nat then raise ZeroDivisionError
  else ret (Qred (Z.of_nat a # Pos.of_nat b)).

(** Lines 127-146: the count of [Attrition == 'Yes'], the size of the view,
    and the rate behind its guard. *)
Definition scalar_kpis : Script Kpi :=
  filtered_df <- get ;;
  let attrition_count :=
    len (boolean_index filtered_df (eq_ (str_col Attrition filtered_df) "Yes")) in
  let total_employees := len filtered_df in
  if (0 <? total_employees)%nat then
    q <- truediv attrition_count total_employees ;;
    ret {| total_employees := total_employees;
           attrition_count := attrition_count;
           attrition_rate := Some (Qred (q * 100)) |}
  else
    ret {| total_employees := total_employees;
           attrition_count := attrition_count;
           attrition_rate := None |}.

(** Lines 313-317: the binned column is written into [filtered_df], then
    read back as the group key. *)
Definition attrition_by_years_company (observed : bool)
  : Script (list (string * float)) :=
  filtered_df <- get ;;
  put (assign_binned filtered_df
         (pd_cut (int_col YearsAtCompany filtered_df) bins labels)) ;;
  filtered_df <- get ;;
  ret (with_rate
         (groupby_categorical_mean observed labels
            (combine (binned_col filtered_df)
                     (int_col Attrition_Binary filtered_df)))).

(** The aggregation transforms of the script. *)
Inductive transform : Type :=
| RateBy (c : Col.t)
| YearsAtCompanyBinned
| AvgIncomeEduAttrition
| AttritionCounts
| ScalarKpis.

Definition apply_transform (observed : bool) (t : transform)
  : Script AggregationResult :=
  match t with
  | RateBy c =>
      filtered_df <- get ;; ret (Rates (rate_by_dimension c filtered_df))
  | YearsAtCompanyBinned =>
      t <- attrition_by_years_company observed ;; ret (BinnedRates t)
  | AvgIncomeEduAttrition =>
      filtered_df <- get ;; ret (MeanIncome (avg_income_edu_attrition filtered_df))
  | AttritionCounts =>
      filtered_df <- get ;; ret (Counts (value_counts (str_col Attrition filtered_df)))
  | ScalarKpis =>
      k <- scalar_kpis ;; ret (Scalars k)
  end.

(** ** The page *)

(** The named colour scales of [px.colors.sequential] (plotly; the names
    are attributes of that module and case-sensitive).  Each scale [n] also
    exists reversed, as [n_r]. *)
Definition sequential_scales : list string :=
  [ "Plotly3"; "Viridis"; "Cividis"; "Inferno"; "Magma"; "Plasma"; "Turbo";
    "Blackbody"; "Bluered"; "Electric"; "Hot"; "Jet"; "Rainbow"; "Blues";
    "BuGn"; "BuPu"; "GnBu"; "Greens"; "Greys"; "OrRd"; "Oranges"; "PuBu";
    "PuBuGn"; "PuRd"; "Purples"; "RdBu"; "RdPu"; "Reds"; "YlGn"; "YlGnBu";
    "YlOrBr"; "YlOrRd"; "turbid"; "thermal"; "haline"; "solar"; "ice"; "gray";
    "deep"; "dense"; "algae"; "matter"; "speed"; "amp"; "tempo"; "Burg";
    "Burgyl"; "Redor"; "Oryel"; "Peach"; "Pinkyl"; "Mint"; "Blugrn";
    "Darkmint"; "Emrld"; "Aggrnyl"; "Bluyl"; "Teal"; "Tealgrn"; "Purp";
    "Purpor"; "Sunset"; "Magenta"; "Sunsetdark"; "Agsunset"; "Brwnyl" ].

Definition has_scale (name : string) : bool :=
  existsb (String.eqb name) sequential_scales ||
  existsb (fun n => String.eqb name (String.append n "_r")) sequential_scales.

(** How a chart is coloured: by a scale looked up in [px.colors.sequential],
    or by colours written out in the call. *)
Inductive coloring : Type :=
| Sequential (name : string)
| Discrete.

(** The arguments of [px.bar] are evaluated before the call:
    [px.colors.sequential.name] raises [AttributeError] when the module has
    no such attribute. *)
Definition color_argument (col : coloring) : Script unit :=
  match col with
  | Sequential name => if has_scale name then ret tt else raise AttributeError
  | Discrete => ret tt
  end.

(** A chart fed by an aggregation: the aggregation is computed, the
    arguments of the figure are evaluated, and the figure is written to the
    page.  The order in which a chart lays out the bars ([sort_values])
    belongs to the rendering and is not modelled. *)
Definition plot (observed : bool) (fig : string) (t : transform) (col : coloring)
  : Script unit :=
  data <- apply_transform observed t ;;
  color_argument col ;;
  emit (st_plotly_chart fig data).

(** A histogram or scatter plot fed by the view itself. *)
Definition plot_frame (fig : string) : Script unit :=
  filtered_df <- get ;; emit (st_plotly_frame fig filtered_df).

Definition kpi_row : Script unit :=
  k <- scalar_kpis ;;
  emit (st_kpi "Total Employees" (KCount (total_employees k))) ;;
  emit (st_kpi "Attrition Count" (KCount (attrition_count k))) ;;
  emit (st_kpi "Attrition Rate (%)"
          match attrition_rate k with
          | Some q => KRate q
          | None => KNotAvailable
          end).

Definition tab1 (observed : bool) : Script unit :=
  kpi_row ;;
  plot observed "fig1" AttritionCounts Discrete ;;
  plot observed "fig2" (RateBy Col.Department) (Sequential "Reds") ;;
  plot observed "fig3" (RateBy Col.JobRole) (Sequential "Reds").

Definition tab2 (observed : bool) : Script unit :=
  plot_frame "fig4_1" ;;
  plot_frame "fig4_2" ;;
  plot observed "fig5" (RateBy Col.Gender) Discrete ;;
  plot observed "fig6" (RateBy Col.MaritalStatus) (Sequential "Blues") ;;
  plot observed "fig7" (RateBy Col.EducationField) (Sequential "Greens") ;;
  plot observed "fig8" (RateBy Col.Education) (Sequential "Purp").

Definition tab3 (observed : bool) : Script unit :=
  plot_frame "fig9_1" ;;
  plot_frame "fig9_2" ;;
  plot observed "fig10" (RateBy Col.JobLevel) (Sequential "Oranges") ;;
  plot observed "fig11" (RateBy Col.BusinessTravel) (Sequential "Viridis") ;;
  plot observed "fig12" (RateBy Col.OverTime) (Sequential "Plasma") ;;
  plot_frame "fig13" ;;
  plot observed "fig14" YearsAtCompanyBinned (Sequential "Thermal") ;;
  plot observed "fig15" (RateBy Col.YearsInCurrentRole) (Sequential "Electric") ;;
  plot observed "fig16" (RateBy Col.NumCompaniesWorked) (Sequential "Dense") ;;
  plot observed "fig17" (RateBy Col.YearsSinceLastPromotion) (Sequential "Rainbow").

Definition tab4 (observed : bool) : Script unit :=
  plot observed "fig18" (RateBy Col.EnvironmentSatisfaction) (Sequential "Plotly3") ;;
  plot observed "fig19" (RateBy Col.JobSatisfaction) (Sequential "Teal") ;;
  plot observed "fig20" (RateBy Col.RelationshipSatisfaction) (Sequential "Aggrnyl") ;;
  plot observed "fig21" (RateBy Col.WorkLifeBalance) (Sequential "Pubu") ;;
  plot observed "fig22" (RateBy Col.PerformanceRating) (Sequential "Sunset") ;;
  plot observed "fig23" (RateBy Col.JobInvolvement) (Sequential "YlOrRd") ;;
  plot observed "fig24" AvgIncomeEduAttrition Discrete.

Definition tab5 : Script unit :=
  filtered_df <- get ;; emit (st_dataframe filtered_df).

Definition tabs (observed : bool) : Script unit :=
  tab1 observed ;; tab2 observed ;; tab3 observed ;; tab4 observed ;; tab5.

Definition empty_warning : string :=
  "No data matches the selected filters. Please adjust your selections.".

(** Lines 98-113 and the tabs: the view is built, and the page is rendered
    only when the view has rows. *)
Definition dashboard (observed : bool) (df : DataFrame) (c : FilterCriteria)
  : list event * outcome unit :=
  let filtered_df := apply_filters df c in
  let page :=
    if empty filtered_df then emit (st_warning empty_warning) ;; st_stop
    else tabs observed in
  match page filtered_df with
  | (log, Done _) => (log, Done tt)
  | (log, Stopped) => (log, Stopped)
  | (log, Raised e) => (log, Raised e)
  end.

(** One run of [app.py]: the loader, the sidebar, then the page.
    [load_data] either returns the frame or stops, so the test [df is None]
    of line 36 never fires and has no counterpart.  The sidebar is built on
    every run, whatever the session holds, and an exception it raises ends
    the run. *)
Definition app (observed : bool) (read_csv : string -> read_csv_result)
    (session : option FilterCriteria) : list event * outcome unit :=
  match load_data read_csv csv_file_path with
  | (log, Done df) =>
      match default_criteria df with
      | inl e => (log, Raised e)
      | inr defaults =>
          let '(log', r) := dashboard observed df (criteria_of session defaults) in
          (log ++ log', r)
      end
  | (log, Stopped) => (log, Stopped)
  | (log, Raised e) => (log, Raised e)
  end.

(** An event that shows data of the view: a headline number, a chart or the
    table. *)
Definition renders (e : event) : bool :=
  match e with
  | st_kpi _ _ | st_plotly_chart _ _ | st_plotly_frame _ _ | st_dataframe _ => true
  | st_error _ | st_warning _ => false
  end.

(** ** Criteria that select everything *)

(** The selected set holds every value that occurs in the column. *)
Definition selects_all (selected : list string) (s : list string) : Prop :=
  forall x, In x s -> In x selected.

(** The range reaches from the least to the greatest cell of the column. *)
Definition spans (range : Z * Z) (s : list Z) : Prop :=
  forall x, In x s -> fst range <= x <= snd range.

Definition covers (c : FilterCriteria) (df : DataFrame) : Prop :=
  selects_all (selected_attrition c) (str_col Attrition df) /\
  selects_all (selected_department c) (str_col Department df) /\
  selects_all (selected_job_role c) (str_col JobRole df) /\
  selects_all (selected_education_field c) (str_col EducationField df) /\
  spans (income_range c) (int_col MonthlyIncome df) /\
  spans (age_range c) (int_col Age df).

(** ** Reading a group-by as a mapping *)

(** The running totals kept for key [k], if it has a group. *)
Fixpoint lookup {K V : Type} (eqb : K -> K -> bool) (k : K) (acc : list (K * V))
  : option V :=
  match acc with
  | [] => None
  | (k', v) :: rest => if eqb k k' then Some v else lookup eqb k rest
  end.

(** Sum and size of a group; a key without rows has no group. *)
Definition summary (g : list Z) : option (Z * nat) :=
  match g with
  | [] => None
  | _ :: _ => Some (sum g, List.length g)
  end.

(** The rows of the frame that hold the value [k] in column [c]. *)
Definition rows_holding (c : Col.t) (k : value) (df : DataFrame) : list Row :=
  filter (fun r => value_eqb (cell c r) k) (rows df).


(** mean(Attrition_Binary) x 100 over the rows that hold [k]. *)
Definition group_rate (c : Col.t) (k : value) (df : DataFrame) : float :=
  times100 (mean (map Attrition_Binary (rows_holding c k df))).

(** The number a float stands for (NaN counts as zero in a sum). *)
Definition number (x : float) : Q :=
  match x with
  | Some q => q
  | None => 0%Q
  end.

(** The sum over the groups of (group size x group rate). *)
Definition weighted_sum {K : Type} (size : K -> nat) (t : list (K * float)) : Q :=
  fold_right
    (fun e acc => (inject_Z (Z.of_nat (size (fst e))) * number (snd e) + acc)%Q)
    0%Q t.

(** The overall attrition rate of a view, as the first tab computes it. *)
Definition overall_rate (v : DataFrame) : option Q :=
  match snd (scalar_kpis v) with
  | Done (k, _) => attrition_rate k
  | Stopped | Raised _ => None
  end.

(** ** Reading the result of a transform *)

(** The view as a transform leaves it, and what the transform returns. *)
Definition view_after (observed : bool) (t : transform) (v : DataFrame) : DataFrame :=
  match snd (apply_transform observed t v) with
  | Done (_, v') => v'
  | Stopped | Raised _ => v
  end.

Definition output_of (observed : bool) (t : transform) (v : DataFrame)
  : list event * outcome AggregationResult :=
  match apply_transform observed t v with
  | (log, Done (r, _)) => (log, Done r)
  | (log, Stopped) => (log, Stopped)
  | (log, Raised e) => (log, Raised e)
  end.

(** [count / total * 100] as a rational number. *)
Definition percent (count total : nat) : Q :=
  (inject_Z (Z.of_nat count) / inject_Z (Z.of_nat total) * 100)%Q.

(** The rows of a frame whose [Attrition] cell is the text Yes. *)
Definition yes_rows (df : DataFrame) : list Row :=
  filter (fun r : Row => String.eqb (Attrition r) "Yes") (rows df).

(** ** Rows outside every bin *)

(** The tenure lies in one of the eight intervals. *)
Definition within_bins (r : Row) : bool :=
  (0 <=? YearsAtCompany r) && (YearsAtCompany r <? 40).

(** The view without the rows whose tenure lies outside every bin. *)
Definition drop_out_of_range (v : DataFrame) : DataFrame :=
  boolean_index v (map within_bins (rows v)).

(** The rows of the view that [pd.cut] puts under the label [lbl]. *)
Definition rows_in_bin (lbl : string) (v : DataFrame) : list Row :=
  filter (fun r : Row =>
            match cut bins labels (YearsAtCompany r) with
            | Some l => String.eqb l lbl
            | None => false
            end) (rows v).

(** Case analysis on a ten-way classification of a tenure, rewriting with
    the value each case gives. *)
Ltac ten_cases H :=
  destruct H as
    [[? ->] | [[? ->] | [[? ->] | [[? ->] | [[? ->] |
    [[? ->] | [[? ->] | [[? ->] | [[? ->] | [? ->]]]]]]]]]].

(** ** Further readings of the script *)

(** [c'] selects no more than [c]: each selected set is contained in the
    one of [c], each range lies within the one of [c]. *)
Definition narrows (c' c : FilterCriteria) : Prop :=
  incl (selected_attrition c') (selected_attrition c) /\
  incl (selected_department c') (selected_department c) /\
  incl (selected_job_role c') (selected_job_role c) /\
  incl (selected_education_field c') (selected_education_field c) /\
  (fst (income_range c) <= fst (income_range c') /\
   snd (income_range c') <= snd (income_range c)) /\
  (fst (age_range c) <= fst (age_range c') /\
   snd (age_range c') <= snd (age_range c)).

(** Every column of the frame has one cell per row. *)
Definition well_formed (df : DataFrame) : Prop :=
  forall col, YearsAtCompany_Binned df = Some col -> List.length col = len df.

(** The lines of a table come in ascending key order. *)
Definition ascending {K A : Type} (leb : K -> K -> bool) (t : list (K * A)) : Prop :=
  Sorted (fun a b => leb (fst a) (fst b) = true) t.

(** The lines of a table come with the largest count first. *)
Definition descending_counts (t : list (string * nat)) : Prop :=
  Sorted (fun a b => (snd b <= snd a)%nat) t.

(** [t.sort_values(key)] on the result of a group-by, as the charts of the
    ordinal columns call it (lines 241, 269, 330, ...).  The table has one
    line per key, so the ascending order of its lines is unique, whatever
    the sorting algorithm. *)
Definition sort_values_by_key (t : list (value * float)) : list (value * float) :=
  sort_index value_leb t.

(** How often the text [x] occurs in a series. *)
Definition occurrences (x : string) (s : list string) : nat :=
  List.length (filter (String.eqb x) s).

(** The rows of a frame with the given Education level and Attrition text. *)
Definition rows_of_pair (k : Z * string) (df : DataFrame) : list Row :=
  filter (fun r : Row => pair_eqb (Education r, Attrition r) k) (rows df).

(** What a transform returns on a view. *)
Definition result_of (observed : bool) (t : transform) (v : DataFrame)
  : AggregationResult :=
  match snd (output_of observed t v) with
  | Done r => r
  | Stopped | Raised _ => Counts []
  end.

(** The chart of figure [fig], fed by the transform [t] of the view [v]. *)
Definition chart (observed : bool) (fig : string) (t : transform) (v : DataFrame)
  : event :=
  st_plotly_chart fig (result_of observed t v).

(** The page of a view, call by call, up to the figure whose arguments
    raise: three headline numbers and the fifteen figures of lines 150-306. *)
Definition page_log (observed : bool) (v : DataFrame) : list event :=
  [ st_kpi "Total Employees" (KCount (len v));
    st_kpi "Attrition Count" (KCount (List.length (yes_rows v)));
    st_kpi "Attrition Rate (%)"
      match overall_rate v with
      | Some q => KRate q
      | None => KNotAvailable
      end;
    chart observed "fig1" AttritionCounts v;
    chart observed "fig2" (RateBy Col.Department) v;
    chart observed "fig3" (RateBy Col.JobRole) v;
    st_plotly_frame "fig4_1" v;
    st_plotly_frame "fig4_2" v;
    chart observed "fig5" (RateBy Col.Gender) v;
    chart observed "fig6" (RateBy Col.MaritalStatus) v;
    chart observed "fig7" (RateBy Col.EducationField) v;
    chart observed "fig8" (RateBy Col.Education) v;
    st_plotly_frame "fig9_1" v;
    st_plotly_frame "fig9_2" v;
    chart observed "fig10" (RateBy Col.JobLevel) v;
    chart observed "fig11" (RateBy Col.BusinessTravel) v;
    chart observed "fig12" (RateBy Col.OverTime) v;
    st_plotly_frame "fig13" v ].

(** The figures the run writes. *)
Definition figures_written : list string :=
  [ "fig1"; "fig2"; "fig3"; "fig4_1"; "fig4_2"; "fig5"; "fig6"; "fig7"; "fig8";
    "fig9_1"; "fig9_2"; "fig10"; "fig11"; "fig12"; "fig13" ].

(** ** Rates in binary64 *)

(** The arithmetic of the rates as the interpreter carries it out: IEEE
    binary64, round to nearest even after every operation. *)
Module Binary64.

(** [float(z)]; exact for an integer below 2^53 in absolute value. *)
Definition of_Z (z : Z) : PrimFloat.float :=
  if z <? 0 then PrimFloat.opp (PrimFloat.of_uint63 (Uint63.of_Z (- z)))
  else PrimFloat.of_uint63 (Uint63.of_Z z).

Definition of_nat (n : nat) : PrimFloat.float := of_Z (Z.of_nat n).

(** [Series.mean()] of an integer series whose sum stays below 2^53: the sum
    is exact, the division rounds; 0/0 is NaN. *)
Definition mean (xs : list Z) : PrimFloat.float :=
  PrimFloat.div (of_Z (sum xs)) (of_nat (List.length xs)).

(** [x * 100]: rounds a second time. *)
Definition times100 (x : PrimFloat.float) : PrimFloat.float :=
  PrimFloat.mul x (of_Z 100).

(** The rational number a finite float is. *)
Definition exact (x : PrimFloat.float) : option Q :=
  match FloatOps.Prim2SF x with
  | SpecFloat.S754_zero _ => Some 0%Q
  | SpecFloat.S754_finite sign m e =>
      Some (Qred ((if sign then -1 else 1) * inject_Z (Z.pos m) * 2 ^ e)%Q)
  | SpecFloat.S754_infinity _ | SpecFloat.S754_nan => None
  end.

End Binary64.





(** ** Sample data *)

(** A CSV line with the given department, attrition flag, tenure, age and
    income; the other cells are fixed. *)
Definition employee (department attrition : string) (years age income : Z)
  : Employee :=
  {| Attrition := attrition;
     Department := department;
     JobRole := "Sales Executive";
     EducationField := "Life Sciences";
     Gender := "Female";
     MaritalStatus := "Single";
     BusinessTravel := "Travel_Rarely";
     OverTime := "No";
     Education := 3;
     JobLevel := 2;
     EnvironmentSatisfaction := 3;
     JobSatisfaction := 4;
     RelationshipSatisfaction := 2;
     WorkLifeBalance := 3;
     PerformanceRating := 3;
     JobInvolvement := 3;
     Age := age;
     MonthlyIncome := income;
     YearsAtCompany := years;
     YearsInCurrentRole := 2;
     NumCompaniesWorked := 1;
     YearsSinceLastPromotion := 0 |}.

(** The three-row dataset of the rate-by-Department example. *)
Definition three_rows : list Employee :=
  [ employee "Sales" "Yes" 0 41 5993;
    employee "Sales" "No" 10 49 5130;
    employee "RnD" "Yes" 40 37 2090 ].

Definition three_rows_df : DataFrame := add_attrition_binary three_rows.

Definition select_all : FilterCriteria :=
  {| selected_attrition := ["Yes"; "No"];
     selected_department := ["Sales"; "RnD"];
     selected_job_role := ["Sales Executive"];
     selected_education_field := ["Life Sciences"];
     income_range := (2090, 5993);
     age_range := (37, 49) |}.

Definition no_department : FilterCriteria :=
  {| selected_attrition := ["Yes"; "No"];
     selected_department := [];
     selected_job_role := ["Sales Executive"];
     selected_education_field := ["Life Sciences"];
     income_range := (2090, 5993);
     age_range := (37, 49) |}.

(** A file system that holds the three-row table at [EA.csv]. *)
Definition three_rows_csv (file_path : string) : read_csv_result :=
  if String.eqb file_path "EA.csv" then CsvTable three_rows
  else FileNotFoundError.

(** A dataset of one row: its income and its age are the least and the
    greatest cell at once. *)
Definition one_row_df : DataFrame :=
  add_attrition_binary [employee "Sales" "Yes" 0 41 5993].


Definition broken_csv (file_path : string) : read_csv_result :=
  OtherException "Error tokenizing data".

Definition only_yes : FilterCriteria :=
  {| selected_attrition := ["Yes"];
     selected_department := ["Sales"; "RnD"];
     selected_job_role := ["Sales Executive"];
     selected_education_field := ["Life Sciences"];
     income_range := (2090, 5993);
     age_range := (37, 49) |}.

Definition only_sales : FilterCriteria :=
  {| selected_attrition := ["Yes"; "No"];
     selected_department := ["Sales"];
     selected_job_role := ["Sales Executive"];
     selected_education_field := ["Life Sciences"];
     income_range := (3000, 5993);
     age_range := (37, 49) |}.

(** * Properties *)

(** ** Series and masks *)

Lemma and_map {A : Type} (f g : A -> bool) (l : list A) :
  and_ (map f l) (map g l) = map (fun x => f x && g x) l.
Proof.
  induction l as [|x l IH]; simpl; [reflexivity | now rewrite IH].
Qed.

Lemma take_map {A : Type} (p : A -> bool) (l : list A) :
  take l (map p l) = filter p l.
Proof.
  induction l as [|x l IH]; simpl; [reflexivity|].
  destruct (p x); now rewrite IH.
Qed.

Lemma filter_length_le {A : Type} (p : A -> bool) (l : list A) :
  (List.length (filter p l) <= List.length l)%nat.
Proof.
  induction l as [|x l IH]; simpl; [lia|].
  destruct (p x); simpl; lia.
Qed.

Lemma filter_all {A : Type} (p : A -> bool) (l : list A) :
  (forall x, In x l -> p x = true) -> filter p l = l.
Proof.
  induction l as [|x l IH]; simpl; intros H; [reflexivity|].
  rewrite (H x (or_introl eq_refl)). f_equal. apply IH. intros y Hy. apply H. now right.
Qed.

Lemma existsb_eqb_In (x : string) (l : list string) :
  existsb (String.eqb x) l = true <-> In x l.
Proof.
  rewrite existsb_exists. split.
  - intros [y [Hy E]]. apply String.eqb_eq in E. now subst.
  - intros H. exists x. split; [assumption | apply String.eqb_refl].
Qed.

(** ** The filter *)

Lemma filter_mask_passes (df : DataFrame) (c : FilterCriteria) :
  filter_mask df c = map (passes c) (rows df).
Proof.
  unfold filter_mask, isin, ge, le, str_col, int_col.
  rewrite !map_map, !and_map. reflexivity.
Qed.

Lemma apply_filters_rows (df : DataFrame) (c : FilterCriteria) :
  rows (apply_filters df c) = filter (passes c) (rows df).
Proof.
  unfold apply_filters, boolean_index. simpl.
  rewrite filter_mask_passes. apply take_map.
Qed.

Lemma passes_satisfies (c : FilterCriteria) (r : Row) :
  passes c r = true <-> satisfies c r.
Proof.
  unfold passes, satisfies.
  rewrite !andb_true_iff, !existsb_eqb_In, !Z.geb_le, !Z.leb_le. tauto.
Qed.

(** C1.  A record is in the filtered view exactly when it is a record of the
    dataset, each of its four categorical values is a member of the selected
    set of its dimension, and its MonthlyIncome and Age lie within the
    inclusive ranges; the view keeps the passing records in dataset order,
    and an empty selected set in any dimension gives the empty view. *)
Theorem filtered_view_membership (df : DataFrame) (c : FilterCriteria) :
  (forall r, In r (rows (apply_filters df c)) <-> In r (rows df) /\ satisfies c r) /\
  rows (apply_filters df c) = filter (passes c) (rows df) /\
  (selected_attrition c = [] \/ selected_department c = [] \/
   selected_job_role c = [] \/ selected_education_field c = [] ->
   rows (apply_filters df c) = []).
Proof.
  split; [|split].
  - intros r. rewrite apply_filters_rows, filter_In, passes_satisfies. tauto.
  - apply apply_filters_rows.
  - intros Hempty. rewrite apply_filters_rows.
    destruct (filter (passes c) (rows df)) as [|r l] eqn:E; [reflexivity|].
    assert (Hin : In r (filter (passes c) (rows df))) by (rewrite E; now left).
    apply filter_In in Hin. destruct Hin as [_ Hp].
    apply passes_satisfies in Hp.
    destruct Hp as (Ha & Hd & Hj & He & _).
    destruct Hempty as [H | [H | [H | H]]]; rewrite H in *; contradiction.
Qed.

(** The empty Department selection on the three-row dataset. *)
Example no_department_empty_view :
  rows (apply_filters three_rows_df no_department) = [].
Proof.
  apply (proj2 (proj2 (filtered_view_membership three_rows_df no_department))).
  right; left; reflexivity.
Defined.

(** C2.  The filtered view never has more rows than the dataset, and it has
    as many (it is the dataset itself) when the criteria select every value
    that occurs in each categorical dimension and both ranges span the
    column from its least to its greatest value. *)
Theorem filtered_view_size (df : DataFrame) (c : FilterCriteria) :
  (len (apply_filters df c) <= len df)%nat /\
  (covers c df ->
   len (apply_filters df c) = len df /\ rows (apply_filters df c) = rows df).
Proof.
  unfold len. rewrite apply_filters_rows. split.
  - apply filter_length_le.
  - intros (Ha & Hd & Hj & He & Hi & Hg).
    assert (E : filter (passes c) (rows df) = rows df).
    { apply filter_all. intros r Hr. apply passes_satisfies.
      unfold satisfies, selects_all, spans, str_col, int_col in *.
      repeat split.
      - apply Ha. apply in_map_iff. now exists r.
      - apply Hd. apply in_map_iff. now exists r.
      - apply Hj. apply in_map_iff. now exists r.
      - apply He. apply in_map_iff. now exists r.
      - apply (Hi (MonthlyIncome r)). apply in_map_iff. now exists r.
      - apply (Hi (MonthlyIncome r)). apply in_map_iff. now exists r.
      - apply (Hg (Age r)). apply in_map_iff. now exists r.
      - apply (Hg (Age r)). apply in_map_iff. now exists r. }
    now rewrite E.
Qed.

Lemma in_unique (x : string) (s : list string) : In x s -> In x (unique s).
Proof.
  induction s as [|y s IH]; simpl; [tauto|].
  intros [E | H]; [now left|].
  destruct (String.eqb_spec y x) as [E | N]; [now left|].
  right. apply filter_In. split; [now apply IH|].
  apply negb_true_iff. now apply String.eqb_neq.
Qed.

Lemma series_min_le (seed x : Z) (s : list Z) : In x s -> series_min seed s <= x.
Proof.
  induction s as [|y s IH]; simpl; [tauto|].
  intros [E | H]; [subst; apply Z.le_min_l|].
  etransitivity; [apply Z.le_min_r | now apply IH].
Qed.

Lemma series_max_ge (seed x : Z) (s : list Z) : In x s -> x <= series_max seed s.
Proof.
  induction s as [|y s IH]; simpl; [tauto|].
  intros [E | H]; [subst; apply Z.le_max_l|].
  etransitivity; [now apply IH | apply Z.le_max_r].
Qed.

(** The criteria of a fresh session select everything. *)
Lemma st_slider_value (lo hi : Z) (range : Z * Z) :
  st_slider lo hi = inr range -> range = (lo, hi) /\ lo < hi.
Proof.
  unfold st_slider. destruct (lo <? hi) eqn:E; simpl; [|discriminate].
  apply Z.ltb_lt in E. destruct (js_safe lo && js_safe hi); [|discriminate].
  intros [= <-]. now split.
Qed.

Lemma default_criteria_covers (df : DataFrame) (c : FilterCriteria) :
  default_criteria df = inr c -> covers c df.
Proof.
  unfold default_criteria. destruct (rows df) as [|r l] eqn:E; [discriminate|].
  destruct (st_slider _ _) as [e | income] eqn:Si; [discriminate|].
  destruct (st_slider (series_min (Age r) _) _) as [e | age] eqn:Sa; [discriminate|].
  apply st_slider_value in Si, Sa. destruct Si as [-> _], Sa as [-> _].
  intros H. injection H as <-. unfold covers, selects_all, spans. simpl.
  repeat split; try (intros x; apply in_unique);
    try (now apply series_min_le); try (now apply series_max_ge).
Qed.

(** The criteria that select everything keep the three rows. *)
Example select_all_keeps_three_rows :
  len (apply_filters three_rows_df select_all) = len three_rows_df /\
  rows (apply_filters three_rows_df select_all) = rows three_rows_df.
Proof.
  apply (proj2 (filtered_view_size three_rows_df select_all)).
  apply default_criteria_covers. reflexivity.
Defined.

(** ** The loader *)

Lemma yes_to_one_cases (x : string) :
  (x = "Yes" /\ yes_to_one x = 1) \/ (x <> "Yes" /\ yes_to_one x = 0).
Proof.
  unfold yes_to_one. destruct (String.eqb_spec x "Yes"); [left | right]; now split.
Qed.

(** C10.  When the file is read, the loader returns every line of the table,
    in order, without writing an error, whatever text the Attrition cells
    hold; the derived Attrition_Binary cell is 1 on exactly the rows whose
    Attrition is the text Yes, 0 on exactly the other rows (so No, the
    lower-case yes and the empty text all give 0), and hence always 0 or 1. *)
Theorem load_data_attrition_binary
    (read_csv : string -> read_csv_result) (file_path : string)
    (table : list Employee) :
  read_csv file_path = CsvTable table ->
  exists df,
    load_data read_csv file_path = ([], Done df) /\
    map emp (rows df) = table /\
    (forall r, In r (rows df) ->
       (Attrition_Binary r = 1 <-> Attrition r = "Yes") /\
       (Attrition_Binary r = 0 <-> Attrition r <> "Yes") /\
       (Attrition_Binary r = 0 \/ Attrition_Binary r = 1)) /\
    yes_to_one "Yes" = 1 /\ yes_to_one "No" = 0 /\ yes_to_one "yes" = 0 /\
    yes_to_one "YES" = 0 /\ yes_to_one "" = 0 /\ yes_to_one " Yes" = 0.
Proof.
  intros Hread. exists (add_attrition_binary table).
  unfold load_data. rewrite Hread. split; [reflexivity|]. split.
  - unfold add_attrition_binary. simpl. rewrite map_map. simpl. apply map_id.
  - split; [|repeat split].
    intros r Hr. unfold add_attrition_binary in Hr. simpl in Hr.
    apply in_map_iff in Hr. destruct Hr as [e [<- _]]. simpl.
    destruct (yes_to_one_cases (Attrition e)) as [[E ->] | [N ->]].
    + repeat split; auto; try discriminate. intros H; contradiction.
    + repeat split; auto; try discriminate. intros H; contradiction.
Qed.

Example load_three_rows :
  exists df,
    load_data three_rows_csv "EA.csv" = ([], Done df) /\
    map emp (rows df) = three_rows /\
    (forall r, In r (rows df) ->
       (Attrition_Binary r = 1 <-> Attrition r = "Yes") /\
       (Attrition_Binary r = 0 <-> Attrition r <> "Yes") /\
       (Attrition_Binary r = 0 \/ Attrition_Binary r = 1)) /\
    yes_to_one "Yes" = 1 /\ yes_to_one "No" = 0 /\ yes_to_one "yes" = 0 /\
    yes_to_one "YES" = 0 /\ yes_to_one "" = 0 /\ yes_to_one " Yes" = 0.
Proof.
  apply (load_data_attrition_binary three_rows_csv "EA.csv" three_rows).
  reflexivity.
Defined.

(** ** The empty-view guard *)

Lemma dashboard_empty (observed : bool) (df : DataFrame) (c : FilterCriteria) :
  rows (apply_filters df c) = [] ->
  dashboard observed df c = ([st_warning empty_warning], Stopped).
Proof.
  intros H. unfold dashboard, empty. now rewrite H.
Qed.

Lemma dashboard_nonempty (observed : bool) (df : DataFrame) (c : FilterCriteria) :
  rows (apply_filters df c) <> [] ->
  fst (dashboard observed df c) = fst (tabs observed (apply_filters df c)).
Proof.
  intros H. unfold dashboard, empty.
  destruct (rows (apply_filters df c)) as [|r l]; [contradiction|].
  cbv zeta.
  destruct (tabs observed (apply_filters df c)) as [log [a | | e]]; reflexivity.
Qed.

(** C3.  When the filtered view has no rows the run writes the warning and
    stops: the log holds the warning and nothing else, so no headline
    number, chart or table is produced and no aggregation is applied to the
    empty view.  Whatever is rendered is rendered from a view with rows, and
    then the log is that of the tabs run on that view. *)
Theorem empty_view_guard (observed : bool) (df : DataFrame) (c : FilterCriteria) :
  (rows (apply_filters df c) = [] ->
   dashboard observed df c = ([st_warning empty_warning], Stopped)) /\
  (rows (apply_filters df c) <> [] ->
   fst (dashboard observed df c) = fst (tabs observed (apply_filters df c))) /\
  (forall e, In e (fst (dashboard observed df c)) -> renders e = true ->
   rows (apply_filters df c) <> []).
Proof.
  split; [apply dashboard_empty | split; [apply dashboard_nonempty|]].
  intros e He Hr Hempty.
  rewrite (dashboard_empty observed df c Hempty) in He. simpl in He.
  destruct He as [<- | []]. discriminate.
Qed.

(** No department selected: the page is the warning alone. *)
Example no_department_warning :
  dashboard true three_rows_df no_department =
  ([st_warning empty_warning], Stopped).
Proof.
  apply (proj1 (empty_view_guard true three_rows_df no_department)).
  reflexivity.
Defined.

Lemma app_empty (observed : bool) (read_csv : string -> read_csv_result)
    (table : list Employee) (session : option FilterCriteria)
    (defaults : FilterCriteria) :
  read_csv csv_file_path = CsvTable table ->
  default_criteria (add_attrition_binary table) = inr defaults ->
  rows (apply_filters (add_attrition_binary table) (criteria_of session defaults)) = [] ->
  app observed read_csv session = ([st_warning empty_warning], Stopped).
Proof.
  intros Hread Hdef Hempty. unfold app, load_data. rewrite Hread, Hdef.
  now rewrite (dashboard_empty observed _ _ Hempty).
Qed.

(** ** Scalar KPIs *)

Lemma eq_yes_rows (v : DataFrame) :
  len (boolean_index v (eq_ (str_col Attrition v) "Yes")) = List.length (yes_rows v).
Proof.
  unfold len, boolean_index, eq_, str_col, yes_rows. simpl.
  rewrite map_map. now rewrite take_map.
Qed.

Lemma Zpos_of_nat (n : nat) : (0 < n)%nat -> Z.pos (Pos.of_nat n) = Z.of_nat n.
Proof. intros H. lia. Qed.

Lemma percent_correct (a b : nat) :
  (0 < b)%nat ->
  (Qred (Qred (Z.of_nat a # Pos.of_nat b) * 100) == percent a b)%Q.
Proof.
  intros Hb. unfold percent.
  rewrite !Qred_correct, Qmake_Qdiv, (Zpos_of_nat b Hb). reflexivity.
Qed.

Lemma scalar_kpis_run (v : DataFrame) :
  scalar_kpis v =
  ([], Done ({| total_employees := len v;
                attrition_count := List.length (yes_rows v);
                attrition_rate :=
                  if (0 <? len v)%nat
                  then Some (Qred (Qred (Z.of_nat (List.length (yes_rows v))
                                         # Pos.of_nat (len v)) * 100))
                  else None |}, v)).
Proof.
  unfold scalar_kpis, bind, get. rewrite eq_yes_rows.
  destruct (0 <? len v)%nat eqn:E.
  - unfold truediv. apply Nat.ltb_lt in E.
    destruct (len v =? 0)%nat eqn:Z0; [apply Nat.eqb_eq in Z0; lia|].
    reflexivity.
  - reflexivity.
Qed.

(** C7.  The scalar KPI computation ends normally on every view, leaves the
    view as it is, and returns: the row count of the view, the number of
    rows whose Attrition is Yes, and, when the view has rows, the rate
    count / total * 100; on a view without rows the rate is the N/A
    sentinel, and no [ZeroDivisionError] is raised.  The first tab shows
    these three values. *)
Theorem scalar_kpis_spec (v : DataFrame) :
  exists k,
    scalar_kpis v = ([], Done (k, v)) /\
    total_employees k = len v /\
    attrition_count k = List.length (yes_rows v) /\
    ((0 < len v)%nat ->
     exists q, attrition_rate k = Some q /\
               (q == percent (attrition_count k) (total_employees k))%Q) /\
    (len v = 0%nat -> attrition_rate k = None) /\
    kpi_row v =
    ([ st_kpi "Total Employees" (KCount (len v));
       st_kpi "Attrition Count" (KCount (List.length (yes_rows v)));
       st_kpi "Attrition Rate (%)"
         match attrition_rate k with
         | Some q => KRate q
         | None => KNotAvailable
         end ], Done (tt, v)).
Proof.
  eexists. split; [apply scalar_kpis_run|]. simpl.
  split; [reflexivity|]. split; [reflexivity|]. split; [|split].
  - intros H. apply Nat.ltb_lt in H. rewrite H.
    eexists. split; [reflexivity|]. apply percent_correct. now apply Nat.ltb_lt.
  - intros H. now rewrite H.
  - unfold kpi_row, bind. rewrite scalar_kpis_run. reflexivity.
Qed.

(** ** Group-by: one pass of running totals against the groups of rows *)

Lemma sum_app (a b : list Z) : sum (a ++ b) = sum a + sum b.
Proof.
  unfold sum. induction a as [|x a IH]; simpl; [reflexivity | rewrite IH; lia].
Qed.


Lemma summary_snoc (g : list Z) (x : Z) :
  summary (g ++ [x]) =
  Some match summary g with
       | Some (s, n) => (s + x, S n)
       | None => (x, 1%nat)
       end.
Proof.
  destruct g as [|y g]; simpl.
  - unfold sum. simpl. now rewrite Z.add_0_r.
  - f_equal. f_equal.
    + change (sum ((y :: g) ++ [x]) = sum (y :: g) + x).
      rewrite sum_app. unfold sum. simpl. lia.
    + rewrite length_app. simpl. lia.
Qed.

Section GroupByFacts.
Context {K : Type} (eqb leb : K -> K -> bool).
Hypothesis eqb_eq : forall a b, eqb a b = true <-> a = b.

Lemma key_eqb_refl (k : K) : eqb k k = true.
Proof. now apply eqb_eq. Qed.

Lemma key_eqb_neq (a b : K) : a <> b -> eqb a b = false.
Proof.
  intros N. destruct (eqb a b) eqn:E; [|reflexivity].
  apply eqb_eq in E. contradiction.
Qed.

Lemma lookup_tally_same (k : K) (x : Z) (acc : list (K * (Z * nat))) :
  lookup eqb k (tally eqb k x acc) =
  Some match lookup eqb k acc with
       | Some (s, n) => (s + x, S n)
       | None => (x, 1%nat)
       end.
Proof.
  induction acc as [|[k' [s n]] rest IH]; simpl.
  - now rewrite key_eqb_refl.
  - destruct (eqb k k') eqn:E; simpl; rewrite E; [reflexivity | apply IH].
Qed.

Lemma lookup_tally_other (k k0 : K) (x : Z) (acc : list (K * (Z * nat))) :
  k0 <> k -> lookup eqb k0 (tally eqb k x acc) = lookup eqb k0 acc.
Proof.
  intros N. induction acc as [|[k' [s n]] rest IH]; simpl.
  - now rewrite (key_eqb_neq k0 k N).
  - destruct (eqb k k') eqn:E; simpl.
    + apply eqb_eq in E. subst k'. now rewrite (key_eqb_neq k0 k N).
    + destruct (eqb k0 k'); [reflexivity | apply IH].
Qed.

Lemma tally_keys (k k0 : K) (x : Z) (acc : list (K * (Z * nat))) :
  In k0 (map fst (tally eqb k x acc)) <-> k0 = k \/ In k0 (map fst acc).
Proof.
  induction acc as [|[k' [s n]] rest IH]; simpl.
  - intuition.
  - destruct (eqb k k') eqn:E; simpl.
    + apply eqb_eq in E. subst k'. intuition.
    + rewrite IH. intuition.
Qed.

Lemma tally_NoDup (k : K) (x : Z) (acc : list (K * (Z * nat))) :
  NoDup (map fst acc) -> NoDup (map fst (tally eqb k x acc)).
Proof.
  induction acc as [|[k' [s n]] rest IH]; simpl; intros H.
  - constructor; [intros [] | constructor].
  - inversion H as [|? ? Hnotin Hrest]; subst.
    destruct (eqb k k') eqn:E; simpl; [now constructor|].
    constructor; [|now apply IH].
    rewrite tally_keys. intros [-> | Hin]; [|contradiction].
    rewrite key_eqb_refl in E. discriminate.
Qed.

Lemma tallies_snoc (obs : list (K * Z)) (o : K * Z) :
  tallies eqb (obs ++ [o]) = tally eqb (fst o) (snd o) (tallies eqb obs).
Proof. unfold tallies. now rewrite fold_left_app. Qed.

Lemma tallies_NoDup (obs : list (K * Z)) : NoDup (map fst (tallies eqb obs)).
Proof.
  induction obs as [|o obs IH] using rev_ind.
  - constructor.
  - rewrite tallies_snoc. now apply tally_NoDup.
Qed.

Lemma group_snoc (k : K) (obs : list (K * Z)) (o : K * Z) :
  group eqb k (obs ++ [o]) =
  group eqb k obs ++ (if eqb (fst o) k then [snd o] else []).
Proof.
  unfold group. rewrite filter_app, map_app. simpl.
  now destruct (eqb (fst o) k).
Qed.

(** After the pass, the totals of a key are the sum and the size of its
    group of rows. *)
Lemma lookup_tallies (k : K) (obs : list (K * Z)) :
  lookup eqb k (tallies eqb obs) = summary (group eqb k obs).
Proof.
  induction obs as [|o obs IH] using rev_ind; [reflexivity|].
  rewrite tallies_snoc, group_snoc.
  destruct (eqb (fst o) k) eqn:E.
  - apply eqb_eq in E. subst k.
    now rewrite lookup_tally_same, summary_snoc, IH.
  - rewrite app_nil_r, <- IH. apply lookup_tally_other.
    intros ->. rewrite key_eqb_refl in E. discriminate.
Qed.

Lemma lookup_In {V : Type} (acc : list (K * V)) :
  NoDup (map fst acc) ->
  forall k v, In (k, v) acc <-> lookup eqb k acc = Some v.
Proof.
  induction acc as [|[k' v'] rest IH]; simpl; intros H k v.
  - split; [tauto | discriminate].
  - inversion H as [|? ? Hnotin Hrest]; subst. split.
    + intros [E | Hin].
      * injection E as -> ->. now rewrite key_eqb_refl.
      * assert (N : k <> k').
        { intros ->. apply Hnotin. apply in_map_iff. now exists (k', v). }
        rewrite (key_eqb_neq k k' N). now apply IH.
    + destruct (eqb k k') eqn:E.
      * apply eqb_eq in E. subst k'. intros E. injection E as ->. now left.
      * intros Hl. right. now apply IH.
Qed.

Lemma group_nonempty (k : K) (obs : list (K * Z)) :
  group eqb k obs <> [] <-> In k (map fst obs).
Proof.
  unfold group. induction obs as [|o obs IH]; simpl; [tauto|].
  destruct (eqb (fst o) k) eqn:E; simpl.
  - apply eqb_eq in E. split; [now left | discriminate].
  - rewrite IH. split; [now right|].
    intros [E' | H]; [|assumption].
    rewrite E', key_eqb_refl in E. discriminate.
Qed.

Lemma insert_by_key_perm {A : Type} (e : K * A) (l : list (K * A)) :
  Permutation (insert_by_key leb e l) (e :: l).
Proof.
  induction l as [|e' l IH]; simpl; [reflexivity|].
  destruct (leb (fst e) (fst e')); [reflexivity|].
  rewrite IH. apply perm_swap.
Qed.

Lemma sort_index_perm {A : Type} (l : list (K * A)) :
  Permutation (sort_index leb l) l.
Proof.
  induction l as [|e l IH]; simpl; [reflexivity|].
  rewrite insert_by_key_perm. now constructor.
Qed.

Lemma in_sorted_tallies (obs : list (K * Z)) (k : K) (s : Z) (n : nat) :
  In (k, (s, n)) (sort_index leb (tallies eqb obs)) <->
  summary (group eqb k obs) = Some (s, n).
Proof.
  rewrite <- lookup_tallies, <- (lookup_In _ (tallies_NoDup obs)).
  split; apply Permutation_in;
    [apply sort_index_perm | symmetry; apply sort_index_perm].
Qed.

Lemma groupby_mean_keys (obs : list (K * Z)) :
  map fst (groupby_mean eqb leb obs) = map fst (sort_index leb (tallies eqb obs)).
Proof. unfold groupby_mean. rewrite map_map. reflexivity. Qed.

(** The result of the group-by is a mapping: each key that occurs has one
    line, and the line holds the mean over the rows with that key. *)
Lemma groupby_mean_spec (obs : list (K * Z)) :
  NoDup (map fst (groupby_mean eqb leb obs)) /\
  forall k m,
    In (k, m) (groupby_mean eqb leb obs) <->
    In k (map fst obs) /\ m = mean (group eqb k obs).
Proof.
  split.
  - rewrite groupby_mean_keys.
    apply (Permutation_NoDup (l := map fst (tallies eqb obs)));
      [|apply tallies_NoDup].
    apply Permutation_map. symmetry. apply sort_index_perm.
  - intros k m. unfold groupby_mean. split.
    + intros H. apply in_map_iff in H. destruct H as [[k' [s n]] [E Hin]].
      simpl in E. injection E as E1 E2. subst k' m.
      apply in_sorted_tallies in Hin.
      assert (Hne : group eqb k obs <> []).
      { intros Hnil. rewrite Hnil in Hin. discriminate. }
      split; [now apply group_nonempty|].
      destruct (group eqb k obs) as [|y g]; [contradiction|].
      simpl in Hin. injection Hin as <- <-. reflexivity.
    + intros [Hk ->]. apply group_nonempty in Hk.
      destruct (group eqb k obs) as [|y g] eqn:G; [contradiction|].
      apply in_map_iff.
      exists (k, (sum (y :: g), List.length (y :: g))). split; [reflexivity|].
      apply in_sorted_tallies. now rewrite G.
Qed.


End GroupByFacts.

(** ** Rate-by-dimension *)

Lemma value_eqb_eq (a b : value) : value_eqb a b = true <-> a = b.
Proof.
  destruct a as [s | x], b as [t | y]; simpl.
  - rewrite String.eqb_eq. split; [now intros -> | now intros [= ->]].
  - split; discriminate.
  - split; discriminate.
  - rewrite Z.eqb_eq. split; [now intros -> | now intros [= ->]].
Qed.

Lemma pair_eqb_eq (a b : Z * string) : pair_eqb a b = true <-> a = b.
Proof.
  destruct a as [x s], b as [y t]. unfold pair_eqb. simpl.
  rewrite andb_true_iff, Z.eqb_eq, String.eqb_eq.
  split; [now intros [-> ->] | now intros [= -> ->]].
Qed.

Lemma group_of_rows {K : Type} (eqb : K -> K -> bool) (key : Row -> K)
    (target : Row -> Z) (k : K) (l : list Row) :
  group eqb k (map (fun r => (key r, target r)) l) =
  map target (filter (fun r => eqb (key r) k) l).
Proof.
  unfold group. induction l as [|r l IH]; simpl; [reflexivity|].
  destruct (eqb (key r) k); simpl; now rewrite IH.
Qed.

Lemma in_with_rate {K : Type} (t : list (K * float)) (k : K) (x : float) :
  In (k, x) (with_rate t) <-> exists m, In (k, m) t /\ x = times100 m.
Proof.
  unfold with_rate. rewrite in_map_iff. split.
  - intros [[k' m] [E H]]. simpl in E. injection E as E1 E2. subst. now exists m.
  - intros [m [H ->]]. now exists (k, m).
Qed.

Lemma with_rate_keys {K : Type} (t : list (K * float)) :
  map fst (with_rate t) = map fst t.
Proof. unfold with_rate. now rewrite map_map. Qed.

Lemma in_rate_by_dimension (c : Col.t) (df : DataFrame) (k : value) (x : float) :
  In (k, x) (rate_by_dimension c df) <->
  (exists r, In r (rows df) /\ cell c r = k) /\ x = group_rate c k df.
Proof.
  unfold rate_by_dimension, group_rate, rows_holding.
  rewrite in_with_rate. split.
  - intros [m [H ->]].
    apply (proj2 (groupby_mean_spec value_eqb value_leb value_eqb_eq _)) in H.
    destruct H as [Hk ->]. rewrite group_of_rows. split; [|reflexivity].
    rewrite map_map in Hk. simpl in Hk. apply in_map_iff in Hk.
    destruct Hk as [r [E Hr]]. now exists r.
  - intros [[r [Hr E]] ->]. eexists. split; [|reflexivity].
    apply (proj2 (groupby_mean_spec value_eqb value_leb value_eqb_eq _)).
    rewrite group_of_rows. split; [|reflexivity].
    rewrite map_map. simpl. apply in_map_iff. now exists r.
Qed.

(** C4.  Rate-by-dimension is a mapping from the distinct values of the
    grouping column to rates: every value that occurs in the column has
    exactly one line, no other key has one, and the rate of a line is
    mean(Attrition_Binary) x 100 over the rows that hold its value.  On the
    three-row dataset, grouping by Department gives RnD: 100 and Sales: 50. *)
Theorem rate_by_dimension_spec (c : Col.t) (df : DataFrame) :
  NoDup (map fst (rate_by_dimension c df)) /\
  (forall k, In k (map fst (rate_by_dimension c df)) <->
             exists r, In r (rows df) /\ cell c r = k) /\
  (forall k x, In (k, x) (rate_by_dimension c df) <->
               (exists r, In r (rows df) /\ cell c r = k) /\
               x = times100 (mean (map Attrition_Binary (rows_holding c k df)))) /\
  rate_by_dimension Col.Department three_rows_df =
  [(VStr "RnD", Some 100%Q); (VStr "Sales", Some 50%Q)].
Proof.
  split; [|split; [|split]].
  - unfold rate_by_dimension. rewrite with_rate_keys.
    apply (proj1 (groupby_mean_spec value_eqb value_leb value_eqb_eq _)).
  - intros k. rewrite in_map_iff. split.
    + intros [[k' x] [E H]]. simpl in E. subst k'.
      now apply in_rate_by_dimension in H.
    + intros H. exists (k, group_rate c k df). split; [reflexivity|].
      now apply in_rate_by_dimension.
  - intros k x. apply in_rate_by_dimension.
  - reflexivity.
Qed.

(** ** Bounds of a rate and the weighted-mean identity *)

Lemma loaded_view (table : list Employee) (crit : FilterCriteria) (r : Row) :
  In r (rows (apply_filters (add_attrition_binary table) crit)) ->
  Attrition_Binary r = yes_to_one (Attrition r).
Proof.
  rewrite apply_filters_rows, filter_In. intros [H _].
  unfold add_attrition_binary in H. simpl in H.
  apply in_map_iff in H. now destruct H as [e [<- _]].
Qed.


Lemma rate_between_0_and_100 (s : Z) (n : nat) :
  (0 < n)%nat -> 0 <= s <= Z.of_nat n ->
  (0 <= Qred (Qred (s # Pos.of_nat n) * 100) <= 100)%Q.
Proof.
  intros Hn Hs. rewrite !Qred_correct.
  unfold Qle, Qmult. cbn [Qnum Qden].
  rewrite Pos.mul_1_r, (Zpos_of_nat n Hn). lia.
Qed.

Lemma sum_attrition_binary (l : list Row) :
  (forall r, In r l -> Attrition_Binary r = yes_to_one (Attrition r)) ->
  sum (map Attrition_Binary l) =
  Z.of_nat (List.length (filter (fun r : Row => String.eqb (Attrition r) "Yes") l)).
Proof.
  unfold sum. induction l as [|r l IH]; simpl; intros H; [reflexivity|].
  rewrite IH by (intros z Hz; apply H; now right).
  rewrite (H r (or_introl eq_refl)). unfold yes_to_one.
  destruct (String.eqb (Attrition r) "Yes"); simpl List.length; lia.
Qed.










(** ** Binning *)

Lemma cut_cases (x : Z) :
  (x < 0 /\ cut bins labels x = None) \/
  (0 <= x < 1 /\ cut bins labels x = Some "<1") \/
  (1 <= x < 3 /\ cut bins labels x = Some "1-3") \/
  (3 <= x < 5 /\ cut bins labels x = Some "3-5") \/
  (5 <= x < 10 /\ cut bins labels x = Some "5-10") \/
  (10 <= x < 15 /\ cut bins labels x = Some "10-15") \/
  (15 <= x < 20 /\ cut bins labels x = Some "15-20") \/
  (20 <= x < 30 /\ cut bins labels x = Some "20-30") \/
  (30 <= x < 40 /\ cut bins labels x = Some "30+") \/
  (40 <= x /\ cut bins labels x = None).
Proof.
  unfold cut, bins, labels. cbn [searchsorted_right].
  destruct (Z.leb_spec 0 x); [|left; split; [lia | reflexivity]].
  destruct (Z.leb_spec 1 x); [|right; left; split; [lia | reflexivity]].
  destruct (Z.leb_spec 3 x); [|do 2 right; left; split; [lia | reflexivity]].
  destruct (Z.leb_spec 5 x); [|do 3 right; left; split; [lia | reflexivity]].
  destruct (Z.leb_spec 10 x); [|do 4 right; left; split; [lia | reflexivity]].
  destruct (Z.leb_spec 15 x); [|do 5 right; left; split; [lia | reflexivity]].
  destruct (Z.leb_spec 20 x); [|do 6 right; left; split; [lia | reflexivity]].
  destruct (Z.leb_spec 30 x); [|do 7 right; left; split; [lia | reflexivity]].
  destruct (Z.leb_spec 40 x); [|do 8 right; left; split; [lia | reflexivity]].
  do 9 right. split; [lia | reflexivity].
Qed.

Lemma cut_within_bins (x : Z) (lbl : string) :
  cut bins labels x = Some lbl -> (0 <=? x) && (x <? 40) = true.
Proof.
  intros Hcut. apply andb_true_iff. rewrite Z.leb_le, Z.ltb_lt.
  revert Hcut. ten_cases (cut_cases x); intros Hcut; try discriminate Hcut; lia.
Qed.

Lemma category_group_of_rows (lbl : string) (key : Row -> option string)
    (target : Row -> Z) (l : list Row) :
  category_group lbl (combine (map key l) (map target l)) =
  map target
    (filter (fun r => match key r with
                      | Some k => String.eqb k lbl
                      | None => false
                      end) l).
Proof.
  unfold category_group. induction l as [|r l IH]; simpl; [reflexivity|].
  destruct (key r) as [k|]; [destruct (String.eqb k lbl)|]; simpl; now rewrite IH.
Qed.

Lemma filter_filter_implied {A : Type} (p q : A -> bool) (l : list A) :
  (forall x, p x = true -> q x = true) ->
  filter p (filter q l) = filter p l.
Proof.
  intros H. induction l as [|x l IH]; simpl; [reflexivity|].
  destruct (q x) eqn:Q; simpl.
  - destruct (p x); now rewrite IH.
  - destruct (p x) eqn:P; [|assumption].
    apply H in P. rewrite P in Q. discriminate.
Qed.

Lemma filter_graph {A B : Type} (h : A -> B) (p : B -> bool) (l : list A) :
  filter (fun e => p (snd e)) (map (fun x => (x, h x)) l) =
  map (fun x => (x, h x)) (filter (fun x => p (h x)) l).
Proof.
  induction l as [|x l IH]; simpl; [reflexivity|].
  destruct (p (h x)); simpl; now rewrite IH.
Qed.

Lemma attrition_by_years_company_run (observed : bool) (v : DataFrame) :
  attrition_by_years_company observed v =
  ([], Done
     (with_rate
        (groupby_categorical_mean observed labels
           (combine (map (fun r : Row => cut bins labels (YearsAtCompany r)) (rows v))
                    (map Attrition_Binary (rows v)))),
      assign_binned v (pd_cut (int_col YearsAtCompany v) bins labels))).
Proof.
  unfold attrition_by_years_company, bind, get, put, ret, pd_cut, int_col,
    binned_col, assign_binned.
  cbn [YearsAtCompany_Binned rows app]. now rewrite map_map.
Qed.

Lemma binned_output (observed : bool) (v : DataFrame) :
  output_of observed YearsAtCompanyBinned v =
  ([], Done (BinnedRates
     (with_rate
        (map (fun lbl => (lbl, mean (map Attrition_Binary (rows_in_bin lbl v))))
             (if observed
              then filter (fun lbl => is_number
                             (mean (map Attrition_Binary (rows_in_bin lbl v))))
                          labels
              else labels))))).
Proof.
  unfold output_of, apply_transform, bind. rewrite attrition_by_years_company_run.
  unfold ret. cbn [app]. do 3 f_equal.
  unfold groupby_categorical_mean, rows_in_bin.
  set (f := fun lbl : string => (lbl, mean (category_group lbl _))).
  set (g := fun lbl : string => (lbl, mean (map Attrition_Binary _))).
  assert (E : forall lbl, f lbl = g lbl).
  { intros lbl. unfold f, g. now rewrite category_group_of_rows. }
  rewrite (map_ext f g E). destruct observed; [|reflexivity].
  unfold g. now rewrite filter_graph.
Qed.

Lemma cut_intervals (x : Z) :
  (cut bins labels x = Some "<1" <-> 0 <= x < 1) /\
  (cut bins labels x = Some "1-3" <-> 1 <= x < 3) /\
  (cut bins labels x = Some "3-5" <-> 3 <= x < 5) /\
  (cut bins labels x = Some "5-10" <-> 5 <= x < 10) /\
  (cut bins labels x = Some "10-15" <-> 10 <= x < 15) /\
  (cut bins labels x = Some "15-20" <-> 15 <= x < 20) /\
  (cut bins labels x = Some "20-30" <-> 20 <= x < 30) /\
  (cut bins labels x = Some "30+" <-> 30 <= x < 40) /\
  (cut bins labels x = None <-> x < 0 \/ 40 <= x).
Proof.
  ten_cases (cut_cases x); repeat split; intros; try discriminate; try lia; try reflexivity.
Qed.

Lemma cut_label (x : Z) (lbl : string) :
  cut bins labels x = Some lbl -> In lbl labels.
Proof.
  ten_cases (cut_cases x); intros Hcut; try discriminate Hcut;
    injection Hcut as <-; unfold labels; simpl; tauto.
Qed.

Lemma rows_in_bin_drop (lbl : string) (v : DataFrame) :
  rows_in_bin lbl (drop_out_of_range v) = rows_in_bin lbl v.
Proof.
  unfold rows_in_bin, drop_out_of_range, boolean_index. cbn [rows].
  rewrite take_map. apply filter_filter_implied.
  intros r. unfold within_bins.
  destruct (cut bins labels (YearsAtCompany r)) as [l|] eqn:E; [|discriminate].
  intros _. now apply (cut_within_bins _ l).
Qed.

Lemma in_rows_in_bin (lbl : string) (v : DataFrame) (r : Row) :
  In r (rows_in_bin lbl v) <->
  In r (rows v) /\ cut bins labels (YearsAtCompany r) = Some lbl.
Proof.
  unfold rows_in_bin. rewrite filter_In.
  destruct (cut bins labels (YearsAtCompany r)) as [l|].
  - rewrite String.eqb_eq. split; intros [H E]; (split; [assumption|]);
      [now subst | now injection E].
  - split; intros [_ E]; discriminate E.
Qed.

Lemma is_number_mean (g : list Z) :
  is_number (mean g) = match g with [] => false | _ :: _ => true end.
Proof. now destruct g. Qed.

Lemma view_after_binned (observed : bool) (v : DataFrame) :
  view_after observed YearsAtCompanyBinned v =
  assign_binned v (pd_cut (int_col YearsAtCompany v) bins labels).
Proof.
  unfold view_after, apply_transform, bind.
  now rewrite attrition_by_years_company_run.
Qed.

Lemma cut_in_range (x : Z) :
  0 <= x < 40 -> exists lbl, cut bins labels x = Some lbl.
Proof.
  intros Hx. destruct (cut bins labels x) as [lbl|] eqn:E; [now exists lbl|].
  apply (proj2 (proj2 (proj2 (proj2 (proj2 (proj2 (proj2 (proj2
           (cut_intervals x))))))))) in E. lia.
Qed.

Lemma in_binned_rates (observed : bool) (v : DataFrame) (lbl : string)
    (rate : float) :
  In (lbl, rate)
    (with_rate
       (map (fun lbl => (lbl, mean (map Attrition_Binary (rows_in_bin lbl v))))
            (if observed
             then filter (fun lbl => is_number
                            (mean (map Attrition_Binary (rows_in_bin lbl v))))
                         labels
             else labels))) <->
  In lbl labels /\
  (observed = true -> rows_in_bin lbl v <> []) /\
  rate = times100 (mean (map Attrition_Binary (rows_in_bin lbl v))).
Proof.
  rewrite in_with_rate. split.
  - intros [m [Hin ->]]. apply in_map_iff in Hin.
    destruct Hin as [l [E Hl]]. injection E as -> <-.
    destruct observed.
    + apply filter_In in Hl. destruct Hl as [Hl Hn].
      rewrite is_number_mean in Hn. split; [assumption|]. split; [|reflexivity].
      intros _ E. rewrite E in Hn. discriminate Hn.
    + split; [assumption|]. split; [discriminate | reflexivity].
  - intros [Hl [Hobs ->]]. eexists. split; [|reflexivity].
    apply in_map_iff. exists lbl. split; [reflexivity|].
    destruct observed; [|assumption].
    apply filter_In. split; [assumption|]. rewrite is_number_mean.
    specialize (Hobs eq_refl).
    destruct (rows_in_bin lbl v); [contradiction | reflexivity].
Qed.

(** C6.  The binning assigns a tenure to the label of the one half-open
    interval that holds it: [0,1) is <1, [1,3) is 1-3, [3,5) is 3-5, [5,10)
    is 5-10, [10,15) is 10-15, [15,20) is 15-20, [20,30) is 20-30 and
    [30,40) is 30+.  A negative tenure and a tenure of 40 or more get no
    label.  The transform writes these labels, row by row, into the column
    YearsAtCompany_Binned of the view and leaves the rows as they are.  The
    grouped rates are a table over the labels, in bin order: with
    [observed=False] every label has its line, with [observed=True] the
    labels whose bin holds a row; the rate of a line is
    mean(Attrition_Binary) x 100 over the rows of that bin alone.  A row of
    the view is in the bin of a label exactly when its tenure gets that
    label: a row with a tenure in [0,40) is in the bin of one line of the
    table, and that line holds a number; a row without a label is in no
    bin, and the result is the same as on the view without such rows. *)
Theorem years_at_company_binning (x : Z) (observed : bool) (v : DataFrame) :
  ((cut bins labels x = Some "<1" <-> 0 <= x < 1) /\
   (cut bins labels x = Some "1-3" <-> 1 <= x < 3) /\
   (cut bins labels x = Some "3-5" <-> 3 <= x < 5) /\
   (cut bins labels x = Some "5-10" <-> 5 <= x < 10) /\
   (cut bins labels x = Some "10-15" <-> 10 <= x < 15) /\
   (cut bins labels x = Some "15-20" <-> 15 <= x < 20) /\
   (cut bins labels x = Some "20-30" <-> 20 <= x < 30) /\
   (cut bins labels x = Some "30+" <-> 30 <= x < 40) /\
   (cut bins labels x = None <-> x < 0 \/ 40 <= x)) /\
  (forall lbl, cut bins labels x = Some lbl -> In lbl labels) /\
  (rows (view_after observed YearsAtCompanyBinned v) = rows v /\
   YearsAtCompany_Binned (view_after observed YearsAtCompanyBinned v) =
   Some (map (fun r : Row => cut bins labels (YearsAtCompany r)) (rows v))) /\
  (exists t,
     output_of observed YearsAtCompanyBinned v = ([], Done (BinnedRates t)) /\
     map fst t =
       (if observed
        then filter (fun lbl => match rows_in_bin lbl v with
                                | [] => false
                                | _ :: _ => true
                                end) labels
        else labels) /\
     (forall lbl rate, In (lbl, rate) t <->
        In lbl labels /\
        (observed = true -> rows_in_bin lbl v <> []) /\
        rate = times100 (mean (map Attrition_Binary (rows_in_bin lbl v)))) /\
     (forall r, In r (rows v) -> 0 <= YearsAtCompany r < 40 ->
        exists lbl rate q,
          In (lbl, rate) t /\ In r (rows_in_bin lbl v) /\ rate = Some q /\
          forall lbl', In r (rows_in_bin lbl' v) -> lbl' = lbl) /\
     (forall r : Row, YearsAtCompany r < 0 \/ 40 <= YearsAtCompany r ->
        forall lbl, ~ In r (rows_in_bin lbl v)) /\
     (forall r lbl, In r (rows_in_bin lbl v) <->
        In r (rows v) /\ cut bins labels (YearsAtCompany r) = Some lbl) /\
     (forall r lbl, In r (rows_in_bin lbl v) ->
        0 <= YearsAtCompany r < 40 /\
        cut bins labels (YearsAtCompany r) = Some lbl)) /\
  output_of observed YearsAtCompanyBinned v =
  output_of observed YearsAtCompanyBinned (drop_out_of_range v).
Proof.
  split; [apply cut_intervals|]. split; [intros lbl; apply cut_label|].
  split; [|split].
  - rewrite view_after_binned. unfold assign_binned, pd_cut, int_col.
    cbn [rows YearsAtCompany_Binned]. now rewrite map_map.
  - eexists. split; [apply binned_output|].
    split; [|split; [|split; [|split; [|split]]]].
    + rewrite with_rate_keys, map_map. cbn [fst]. rewrite map_id.
      destruct observed; [|reflexivity].
      apply filter_ext. intros lbl. rewrite is_number_mean.
      now destruct (rows_in_bin lbl v).
    + intros lbl rate. apply in_binned_rates.
    + intros r Hr Hx. destruct (cut_in_range _ Hx) as [lbl Hcut].
      assert (Hin : In r (rows_in_bin lbl v)) by now apply in_rows_in_bin.
      destruct (map Attrition_Binary (rows_in_bin lbl v)) as [|y g] eqn:G.
      { apply (in_map Attrition_Binary) in Hin. rewrite G in Hin.
        contradiction. }
      exists lbl, (times100 (mean (y :: g))). eexists.
      split; [|split; [assumption|split; [reflexivity|]]].
      * apply in_binned_rates. split; [now apply (cut_label _ _ Hcut)|].
        split; [|now rewrite G].
        intros _ E. rewrite E in Hin. contradiction.
      * intros lbl' H. apply in_rows_in_bin in H. destruct H as [_ H].
        congruence.
    + intros r Hx lbl H. apply in_rows_in_bin in H. destruct H as [_ H].
      apply cut_within_bins in H. apply andb_true_iff in H.
      rewrite Z.leb_le, Z.ltb_lt in H. lia.
    + intros r lbl. apply in_rows_in_bin.
    + intros r lbl Hin. apply in_rows_in_bin in Hin. destruct Hin as [_ E].
      split; [|assumption].
      apply cut_within_bins in E. apply andb_true_iff in E.
      rewrite Z.leb_le, Z.ltb_lt in E. lia.
  - rewrite !binned_output.
    assert (E : forall lbl,
              mean (map Attrition_Binary (rows_in_bin lbl (drop_out_of_range v))) =
              mean (map Attrition_Binary (rows_in_bin lbl v)))
      by (intros lbl; now rewrite rows_in_bin_drop).
    rewrite (map_ext
               (fun lbl => (lbl, mean (map Attrition_Binary
                                         (rows_in_bin lbl (drop_out_of_range v)))))
               (fun lbl => (lbl, mean (map Attrition_Binary (rows_in_bin lbl v)))))
      by (intros lbl; now rewrite E).
    destruct observed; [|reflexivity].
    rewrite (filter_ext
               (fun lbl => is_number (mean (map Attrition_Binary
                                              (rows_in_bin lbl (drop_out_of_range v)))))
               (fun lbl => is_number (mean (map Attrition_Binary (rows_in_bin lbl v)))))
      by (intros lbl; now rewrite E).
    reflexivity.
Qed.

(** The three rows have tenures 0, 10 and 40; the row with 40 years is in
    no line of the grouped rates. *)
Example three_rows_binned :
  output_of true YearsAtCompanyBinned three_rows_df =
  ([], Done (BinnedRates [("<1", Some 100%Q); ("10-15", Some 0%Q)])) /\
  output_of false YearsAtCompanyBinned three_rows_df =
  ([], Done (BinnedRates
     [("<1", Some 100%Q); ("1-3", NaN); ("3-5", NaN); ("5-10", NaN);
      ("10-15", Some 0%Q); ("15-20", NaN); ("20-30", NaN); ("30+", NaN)])).
Proof. split; reflexivity. Qed.

(** ** What a transform does to the view *)

Lemma transform_runs (observed : bool) (t : transform) (v : DataFrame) :
  exists r,
    apply_transform observed t v = ([], Done (r, view_after observed t v)).
Proof.
  destruct t.
  - eexists. reflexivity.
  - unfold view_after, apply_transform, bind.
    rewrite attrition_by_years_company_run. eexists. reflexivity.
  - eexists. reflexivity.
  - eexists. reflexivity.
  - unfold view_after, apply_transform, bind.
    rewrite scalar_kpis_run. eexists. reflexivity.
Qed.

Lemma view_after_other (observed : bool) (t : transform) (v : DataFrame) :
  t <> YearsAtCompanyBinned -> view_after observed t v = v.
Proof.
  intros N. destruct t as [c | | | |].
  - reflexivity.
  - contradiction.
  - reflexivity.
  - reflexivity.
  - unfold view_after, apply_transform, bind. now rewrite scalar_kpis_run.
Qed.

Lemma view_after_rows (observed : bool) (t : transform) (v : DataFrame) :
  rows (view_after observed t v) = rows v.
Proof.
  destruct t as [c | | | |].
  - reflexivity.
  - now rewrite view_after_binned.
  - reflexivity.
  - reflexivity.
  - rewrite view_after_other; [reflexivity | discriminate].
Qed.

Lemma view_after_twice (observed : bool) (t : transform) (v : DataFrame) :
  view_after observed t (view_after observed t v) = view_after observed t v.
Proof.
  destruct t as [c | | | |].
  - reflexivity.
  - now rewrite !view_after_binned.
  - reflexivity.
  - reflexivity.
  - rewrite !view_after_other; [reflexivity | discriminate | discriminate].
Qed.

(** What a transform returns depends on the rows of the view alone. *)
Lemma output_of_rows (observed : bool) (t : transform) (v1 v2 : DataFrame) :
  rows v1 = rows v2 -> output_of observed t v1 = output_of observed t v2.
Proof.
  destruct v1 as [l1 b1], v2 as [l2 b2]. cbn [rows]. intros <-.
  destruct t.
  - reflexivity.
  - now rewrite !binned_output.
  - reflexivity.
  - reflexivity.
  - unfold output_of, apply_transform, bind. now rewrite !scalar_kpis_run.
Qed.

Lemma output_of_run (observed : bool) (t : transform) (v v' : DataFrame)
    (r : AggregationResult) :
  apply_transform observed t v = ([], Done (r, v')) ->
  output_of observed t v = ([], Done r).
Proof. unfold output_of. now intros ->. Qed.

(** C8, as the code has it.  Every transform ends normally and leaves the
    rows of the view as they are.  Rate-by-dimension for every column, the
    Education x Attrition mean-income aggregation, the Attrition counts and
    the scalar KPIs leave the whole view identical.  The YearsAtCompany
    binning transform binds the column YearsAtCompany_Binned in the view, so
    after it the view has that column besides the loaded ones. *)
Theorem transforms_keep_rows (observed : bool) (t : transform) (v : DataFrame) :
  (exists r,
     apply_transform observed t v = ([], Done (r, view_after observed t v))) /\
  rows (view_after observed t v) = rows v /\
  (t <> YearsAtCompanyBinned -> view_after observed t v = v) /\
  (t = YearsAtCompanyBinned ->
   YearsAtCompany_Binned (view_after observed t v) =
     Some (pd_cut (int_col YearsAtCompany v) bins labels) /\
   columns (view_after observed t v) =
     map column_name loaded_columns ++ ["YearsAtCompany_Binned"]).
Proof.
  split; [apply transform_runs|]. split; [apply view_after_rows|].
  split; [apply view_after_other|].
  intros ->. rewrite view_after_binned. split; reflexivity.
Qed.

(** The binning transform changes the view: on the three-row view it binds
    the column YearsAtCompany_Binned, which the view did not have, so the
    view after the transform is not the view before it and its column list
    is longer by that label. *)
Lemma binning_changes_view :
  view_after false YearsAtCompanyBinned three_rows_df <> three_rows_df /\
  YearsAtCompany_Binned three_rows_df = None /\
  YearsAtCompany_Binned (view_after false YearsAtCompanyBinned three_rows_df) =
    Some [Some "<1"; Some "10-15"; None] /\
  columns (view_after false YearsAtCompanyBinned three_rows_df) =
    columns three_rows_df ++ ["YearsAtCompany_Binned"].
Proof.
  split; [|split; [|split]].
  - intros E. apply (f_equal YearsAtCompany_Binned) in E.
    vm_compute in E. discriminate E.
  - reflexivity.
  - reflexivity.
  - reflexivity.
Qed.

(** C9.  Every transform is idempotent: it ends normally, and applied again
    to the view as it left it, it returns the same result and leaves that
    view as it is.  What a transform returns does not depend on which
    transforms were applied to the view before. *)
Theorem transforms_idempotent (observed : bool) (t : transform) (v : DataFrame) :
  (exists r,
     apply_transform observed t v = ([], Done (r, view_after observed t v)) /\
     apply_transform observed t (view_after observed t v) =
       ([], Done (r, view_after observed t v))) /\
  (forall t', output_of observed t (view_after observed t' v) =
              output_of observed t v).
Proof.
  split.
  - destruct (transform_runs observed t v) as [r Hr].
    destruct (transform_runs observed t (view_after observed t v)) as [r' Hr'].
    rewrite view_after_twice in Hr'.
    exists r. split; [assumption|].
    assert (E : output_of observed t (view_after observed t v) =
                output_of observed t v)
      by (apply output_of_rows, view_after_rows).
    rewrite (output_of_run _ _ _ _ _ Hr), (output_of_run _ _ _ _ _ Hr') in E.
    injection E as ->. assumption.
  - intros t'. apply output_of_rows, view_after_rows.
Qed.

(** The weighted-mean identity of the exact rates is a property of the
    columns of the dataset.  The grouped rates of the binning transform leave out the rows without a
    label: on the three-row view the three bins weigh 100/3, while the
    overall rate is 200/3. *)
Lemma binned_rates_leave_rows_out :
  output_of true YearsAtCompanyBinned three_rows_df =
  ([], Done (BinnedRates [("<1", Some 100%Q); ("10-15", Some 0%Q)])) /\
  (weighted_sum (fun lbl => List.length (rows_in_bin lbl three_rows_df))
     [("<1", Some 100%Q); ("10-15", Some 0%Q)]
   / inject_Z (Z.of_nat (len three_rows_df)) == 100 # 3)%Q /\
  overall_rate three_rows_df = Some (200 # 3)%Q.
Proof.
  split; [reflexivity|]. split; reflexivity.
Qed.

(** * Further properties of the script *)

(** ** A file that cannot be loaded *)



(** ** The options and the defaults of the sidebar *)

Lemma in_unique_inv (x : string) (s : list string) : In x (unique s) -> In x s.
Proof.
  induction s as [|y s IH]; simpl; [tauto|].
  intros [E | H]; [now left|].
  apply filter_In in H. right. now apply IH.
Qed.

Lemma unique_NoDup (s : list string) : NoDup (unique s).
Proof.
  induction s as [|y s IH]; simpl; constructor.
  - intros H. apply filter_In in H. destruct H as [_ H].
    rewrite String.eqb_refl in H. discriminate.
  - now apply NoDup_filter.
Qed.

Lemma unique_of_NoDup (s : list string) : NoDup s -> unique s = s.
Proof.
  induction s as [|y s IH]; simpl; intros H; [reflexivity|].
  inversion H as [|? ? Hnotin Hs]; subst. rewrite (IH Hs). f_equal.
  apply filter_all. intros x Hx. apply negb_true_iff, String.eqb_neq.
  intros ->. contradiction.
Qed.

(** X2.  The options of a multiselect ([Series.unique()]) are exactly the
    values that occur in the column, each listed once; the first option is
    the cell of the first row, and taking the options of the options
    changes nothing. *)
Theorem unique_lists_each_value_once (s : list string) :
  NoDup (unique s) /\
  (forall x, In x (unique s) <-> In x s) /\
  unique (unique s) = unique s /\
  (forall x s', s = x :: s' -> exists rest, unique s = x :: rest) /\
  (List.length (unique s) <= List.length s)%nat.
Proof.
  split; [apply unique_NoDup|]. split.
  - intros x. split; [apply in_unique_inv | apply in_unique].
  - split; [apply unique_of_NoDup, unique_NoDup|]. split.
    + intros x s' ->. simpl. eexists. reflexivity.
    + induction s as [|y s IH]; simpl; [lia|].
      pose proof (filter_length_le (fun z => negb (String.eqb y z)) (unique s)).
      lia.
Qed.







(** A table of one row, and a table without rows: the run ends in the
    sidebar, before the filter, and nothing is written. *)
Example sidebar_raises :
  default_criteria one_row_df = inl StreamlitAPIException /\
  app true (fun _ => CsvTable [employee "Sales" "Yes" 0 41 5993]) None =
    ([], Raised StreamlitAPIException) /\
  app true (fun _ => CsvTable []) None = ([], Raised ValueError) /\
  st_slider 0 (2 ^ 53) = inl StreamlitAPIException /\
  st_slider 0 (2 ^ 53 - 1) = inr (0, 2 ^ 53 - 1).
Proof. repeat split. Qed.

(** ** Narrowing the criteria *)

Lemma narrows_passes (c' c : FilterCriteria) (r : Row) :
  narrows c' c -> passes c' r = true -> passes c r = true.
Proof.
  intros (Ha & Hd & Hj & He & Hi & Hg) H.
  apply passes_satisfies in H. apply passes_satisfies.
  destruct H as (H1 & H2 & H3 & H4 & H5 & H6).
  unfold satisfies. repeat split;
    first [now apply Ha | now apply Hd | now apply Hj | now apply He | lia].
Qed.

(** X4.  Narrowing a selection never adds a row: when every selected set
    and both ranges of the new criteria lie within the old ones, the new
    view is the old view filtered once more, so each of its rows was in the
    old view and it is no longer than the old view.  Filtering a view again
    with its own criteria changes nothing. *)
Theorem narrowing_only_removes_rows (df : DataFrame) (c' c : FilterCriteria) :
  narrows c' c ->
  rows (apply_filters df c') = rows (apply_filters (apply_filters df c) c') /\
  (forall r, In r (rows (apply_filters df c')) -> In r (rows (apply_filters df c))) /\
  (len (apply_filters df c') <= len (apply_filters df c))%nat /\
  rows (apply_filters (apply_filters df c) c) = rows (apply_filters df c).
Proof.
  intros Hn. unfold len. rewrite !apply_filters_rows.
  assert (E : filter (passes c') (filter (passes c) (rows df)) =
              filter (passes c') (rows df))
    by (apply filter_filter_implied; intros r; now apply narrows_passes).
  split; [now rewrite E|]. split; [|split].
  - intros r Hr. rewrite <- E in Hr. apply filter_In in Hr. tauto.
  - rewrite <- E. apply filter_length_le.
  - apply filter_filter_implied. trivial.
Qed.

Example sales_within_everything :
  rows (apply_filters three_rows_df only_sales) =
    rows (apply_filters (apply_filters three_rows_df select_all) only_sales) /\
  (forall r, In r (rows (apply_filters three_rows_df only_sales)) ->
             In r (rows (apply_filters three_rows_df select_all))) /\
  (len (apply_filters three_rows_df only_sales) <=
   len (apply_filters three_rows_df select_all))%nat /\
  rows (apply_filters (apply_filters three_rows_df select_all) select_all) =
    rows (apply_filters three_rows_df select_all).
Proof.
  apply (narrowing_only_removes_rows three_rows_df only_sales select_all).
  unfold narrows, incl. simpl. repeat split; try lia; intros a H; tauto.
Defined.

(** ** The order of the lines of a group-by *)

Lemma value_leb_total (a b : value) : value_leb a b = true \/ value_leb b a = true.
Proof.
  destruct a as [s | x], b as [t | y]; simpl; auto.
  - apply String.leb_total.
  - rewrite !Z.leb_le. lia.
Qed.

Lemma pair_leb_total (a b : Z * string) : pair_leb a b = true \/ pair_leb b a = true.
Proof.
  destruct a as [x s], b as [y t]. unfold pair_leb. simpl.
  destruct (Z.ltb_spec x y); [now left|].
  destruct (Z.ltb_spec y x); [now right|].
  assert (E : x = y) by lia. subst y. rewrite Z.eqb_refl. simpl.
  apply String.leb_total.
Qed.

Section SortedIndex.
Context {K : Type} (leb : K -> K -> bool).
Hypothesis leb_total : forall a b, leb a b = true \/ leb b a = true.

Lemma insert_by_key_ascending {A : Type} (e : K * A) (l : list (K * A)) :
  ascending leb l -> ascending leb (insert_by_key leb e l).
Proof.
  unfold ascending. induction l as [|e' l IH]; simpl; intros H.
  - repeat constructor.
  - destruct (leb (fst e) (fst e')) eqn:E.
    + constructor; [assumption | now constructor].
    + inversion H as [|? ? Hl Hhd]; subst. constructor; [now apply IH|].
      assert (E' : leb (fst e') (fst e) = true)
        by (destruct (leb_total (fst e) (fst e')); congruence).
      destruct l as [|e'' l]; simpl.
      * now constructor.
      * destruct (leb (fst e) (fst e'')); constructor; [assumption|].
        now inversion Hhd.
Qed.

Lemma sort_index_ascending {A : Type} (l : list (K * A)) :
  ascending leb (sort_index leb l).
Proof.
  induction l as [|e l IH]; simpl; [constructor|].
  now apply insert_by_key_ascending.
Qed.

Lemma sort_index_of_ascending {A : Type} (l : list (K * A)) :
  ascending leb l -> sort_index leb l = l.
Proof.
  unfold ascending. induction l as [|e l IH]; simpl; intros H; [reflexivity|].
  inversion H as [|? ? Hl Hhd]; subst. rewrite (IH Hl).
  destruct l as [|e' l]; simpl; [reflexivity|].
  inversion Hhd as [|? ? Hle]; subst. now rewrite Hle.
Qed.

Lemma ascending_map_snd {A B : Type} (f : K * A -> B) (l : list (K * A)) :
  ascending leb l -> ascending leb (map (fun e => (fst e, f e)) l).
Proof.
  unfold ascending. induction l as [|e l IH]; simpl; intros H; [constructor|].
  inversion H as [|? ? Hl Hhd]; subst. constructor; [now apply IH|].
  destruct l as [|e' l]; simpl; constructor. now inversion Hhd.
Qed.

Lemma groupby_mean_ascending (eqb : K -> K -> bool) (obs : list (K * Z)) :
  ascending leb (groupby_mean eqb leb obs).
Proof.
  unfold groupby_mean.
  apply (ascending_map_snd
           (fun g => Some (Qred (fst (snd g) # Pos.of_nat (snd (snd g)))))).
  apply sort_index_ascending.
Qed.
End SortedIndex.

Lemma rate_by_dimension_ascending (c : Col.t) (df : DataFrame) :
  ascending value_leb (rate_by_dimension c df).
Proof.
  unfold rate_by_dimension, with_rate.
  apply (ascending_map_snd value_leb (fun e => times100 (snd e))).
  apply groupby_mean_ascending. apply value_leb_total.
Qed.

(** X5.  The lines of a group-by come in ascending key order ([sort=True]),
    with no key twice: the rates of a column by ascending value, the mean
    incomes by ascending Education and, within one level, by ascending
    Attrition text. *)
Theorem group_by_lines_ascend (c : Col.t) (df : DataFrame) :
  ascending value_leb (rate_by_dimension c df) /\
  NoDup (map fst (rate_by_dimension c df)) /\
  ascending pair_leb (avg_income_edu_attrition df) /\
  NoDup (map fst (avg_income_edu_attrition df)).
Proof.
  split; [apply rate_by_dimension_ascending|]. split; [|split].
  - unfold rate_by_dimension. rewrite with_rate_keys.
    apply (proj1 (groupby_mean_spec value_eqb value_leb value_eqb_eq _)).
  - apply groupby_mean_ascending. apply pair_leb_total.
  - apply (proj1 (groupby_mean_spec pair_eqb pair_leb pair_eqb_eq _)).
Qed.

(** X6.  The charts of the ordinal columns sort the grouped table by its
    key before drawing (lines 241, 269, 330, ...).  The group-by has
    already put the lines in that order, so the sort changes nothing: the
    bars are drawn in the order the group-by returned. *)
Theorem sort_by_key_changes_nothing (c : Col.t) (df : DataFrame) :
  sort_values_by_key (rate_by_dimension c df) = rate_by_dimension c df.
Proof.
  unfold sort_values_by_key. apply sort_index_of_ascending.
  apply rate_by_dimension_ascending.
Qed.

(** ** Mean income by Education and Attrition *)

Lemma in_avg_income (df : DataFrame) (k : Z * string) (m : float) :
  In (k, m) (avg_income_edu_attrition df) <->
  (exists r : Row, In r (rows df) /\ (Education r, Attrition r) = k) /\
  m = mean (map (fun r : Row => MonthlyIncome r) (rows_of_pair k df)).
Proof.
  unfold avg_income_edu_attrition, rows_of_pair.
  rewrite (proj2 (groupby_mean_spec pair_eqb pair_leb pair_eqb_eq _) k m).
  rewrite (group_of_rows pair_eqb
             (fun r : Row => (Education r, Attrition r))
             (fun r : Row => MonthlyIncome r)).
  rewrite map_map. cbn [fst]. rewrite in_map_iff.
  split; intros [[r Hr] ->]; (split; [exists r; tauto | reflexivity]).
Qed.

Lemma sum_between (lo hi : Z) (g : list Z) :
  (forall y, In y g -> lo <= y <= hi) ->
  lo * Z.of_nat (List.length g) <= sum g <= hi * Z.of_nat (List.length g).
Proof.
  unfold sum. induction g as [|y g IH]; intros H; [simpl; lia|].
  assert (Hy : lo <= y <= hi) by (apply H; now left).
  assert (Hg := IH (fun z Hz => H z (or_intror Hz))).
  cbn [List.length fold_right]. lia.
Qed.

Lemma mean_between (lo hi : Z) (g : list Z) :
  g <> [] -> (forall y, In y g -> lo <= y <= hi) ->
  exists q, mean g = Some q /\ (inject_Z lo <= q <= inject_Z hi)%Q.
Proof.
  intros Hne H. pose proof (sum_between lo hi g H) as Hs.
  destruct g as [|y g]; [contradiction|].
  cbn [mean]. eexists. split; [reflexivity|].
  rewrite Qred_correct. unfold Qle, inject_Z. cbn [Qnum Qden].
  rewrite Zpos_of_nat by (simpl; lia). lia.
Qed.

(** X7.  The Education x Attrition aggregation has exactly one line for
    each pair (Education, Attrition) that occurs in the view; the line
    holds the mean MonthlyIncome of the rows with that pair.  Every mean
    shown is a number within the income range of the slider. *)
Theorem mean_income_by_education_and_attrition (df : DataFrame) (c : FilterCriteria) :
  NoDup (map fst (avg_income_edu_attrition (apply_filters df c))) /\
  (forall k m,
     In (k, m) (avg_income_edu_attrition (apply_filters df c)) <->
     (exists r : Row, In r (rows (apply_filters df c)) /\
                      (Education r, Attrition r) = k) /\
     m = mean (map (fun r : Row => MonthlyIncome r)
                   (rows_of_pair k (apply_filters df c)))) /\
  (forall k m,
     In (k, m) (avg_income_edu_attrition (apply_filters df c)) ->
     exists q, m = Some q /\
               (inject_Z (fst (income_range c)) <= q <=
                inject_Z (snd (income_range c)))%Q).
Proof.
  split; [apply (proj1 (groupby_mean_spec pair_eqb pair_leb pair_eqb_eq _))|].
  split; [intros k m; apply in_avg_income|].
  intros k m Hin. apply in_avg_income in Hin.
  destruct Hin as [[r [Hr Hk]] ->].
  apply mean_between.
  - intros Hnil.
    assert (Hin : In (MonthlyIncome r)
                     (map (fun r : Row => MonthlyIncome r)
                          (rows_of_pair k (apply_filters df c)))).
    { apply in_map_iff. exists r. split; [reflexivity|].
      unfold rows_of_pair. apply filter_In. split; [assumption|].
      now apply pair_eqb_eq. }
    rewrite Hnil in Hin. contradiction.
  - intros y Hy. apply in_map_iff in Hy. destruct Hy as [r' [<- Hr']].
    unfold rows_of_pair in Hr'. apply filter_In in Hr'. destruct Hr' as [Hr' _].
    rewrite apply_filters_rows in Hr'. apply filter_In in Hr'.
    destruct Hr' as [_ Hp]. apply passes_satisfies in Hp.
    unfold satisfies in Hp. tauto.
Qed.

(** ** The counts of the pie chart *)

Lemma count_up_same (k : string) (acc : list (string * nat)) :
  lookup String.eqb k (count_up k acc) =
  Some match lookup String.eqb k acc with
       | Some n => S n
       | None => 1%nat
       end.
Proof.
  induction acc as [|[k' n] rest IH]; simpl.
  - now rewrite String.eqb_refl.
  - destruct (String.eqb k k') eqn:E; simpl; rewrite E; [reflexivity | apply IH].
Qed.

Lemma count_up_other (k k0 : string) (acc : list (string * nat)) :
  k0 <> k -> lookup String.eqb k0 (count_up k acc) = lookup String.eqb k0 acc.
Proof.
  intros N. apply String.eqb_neq in N.
  induction acc as [|[k' n] rest IH]; simpl.
  - now rewrite N.
  - destruct (String.eqb k k') eqn:E; simpl.
    + apply String.eqb_eq in E. subst k'. now rewrite N.
    + destruct (String.eqb k0 k'); [reflexivity | apply IH].
Qed.

Lemma count_up_keys (k k0 : string) (acc : list (string * nat)) :
  In k0 (map fst (count_up k acc)) <-> k0 = k \/ In k0 (map fst acc).
Proof.
  induction acc as [|[k' n] rest IH]; simpl.
  - intuition.
  - destruct (String.eqb k k') eqn:E; simpl.
    + apply String.eqb_eq in E. subst k'. intuition.
    + rewrite IH. intuition.
Qed.

Lemma count_up_NoDup (k : string) (acc : list (string * nat)) :
  NoDup (map fst acc) -> NoDup (map fst (count_up k acc)).
Proof.
  induction acc as [|[k' n] rest IH]; simpl; intros H.
  - constructor; [intros [] | constructor].
  - inversion H as [|? ? Hnotin Hrest]; subst.
    destruct (String.eqb k k') eqn:E; simpl; [now constructor|].
    constructor; [|now apply IH].
    rewrite count_up_keys. intros [-> | Hin]; [|contradiction].
    rewrite String.eqb_refl in E. discriminate.
Qed.

Lemma count_up_total (k : string) (acc : list (string * nat)) :
  list_sum (map snd (count_up k acc)) = S (list_sum (map snd acc)).
Proof.
  induction acc as [|[k' n] rest IH]; simpl; [reflexivity|].
  destruct (String.eqb k k'); simpl; [reflexivity | rewrite IH; lia].
Qed.

Lemma counts_snoc (s : list string) (x : string) :
  fold_left (fun acc k => count_up k acc) (s ++ [x]) [] =
  count_up x (fold_left (fun acc k => count_up k acc) s []).
Proof. now rewrite fold_left_app. Qed.

Lemma counts_NoDup (s : list string) :
  NoDup (map fst (fold_left (fun acc k => count_up k acc) s [])).
Proof.
  induction s as [|x s IH] using rev_ind; [constructor|].
  rewrite counts_snoc. now apply count_up_NoDup.
Qed.

Lemma occurrences_snoc (k x : string) (s : list string) :
  occurrences k (s ++ [x]) =
  (occurrences k s + if String.eqb k x then 1 else 0)%nat.
Proof.
  unfold occurrences. rewrite filter_app, length_app. simpl.
  now destruct (String.eqb k x).
Qed.

Lemma lookup_counts (k : string) (s : list string) :
  lookup String.eqb k (fold_left (fun acc k => count_up k acc) s []) =
  match occurrences k s with
  | O => None
  | S n => Some (S n)
  end.
Proof.
  induction s as [|x s IH] using rev_ind; [reflexivity|].
  rewrite counts_snoc, occurrences_snoc.
  destruct (String.eqb_spec k x) as [-> | N].
  - rewrite count_up_same, IH.
    destruct (occurrences x s); simpl; f_equal; lia.
  - rewrite (count_up_other _ _ _ N), IH, Nat.add_0_r. reflexivity.
Qed.

Lemma insert_by_count_perm (e : string * nat) (l : list (string * nat)) :
  Permutation (insert_by_count e l) (e :: l).
Proof.
  induction l as [|e' l IH]; simpl; [reflexivity|].
  destruct (snd e' <=? snd e)%nat; [reflexivity|].
  rewrite IH. apply perm_swap.
Qed.

Lemma value_counts_perm (s : list string) :
  Permutation (value_counts s) (fold_left (fun acc k => count_up k acc) s []).
Proof.
  unfold value_counts.
  induction (fold_left (fun acc k => count_up k acc) s []) as [|e l IH]; simpl;
    [reflexivity|].
  rewrite insert_by_count_perm. now constructor.
Qed.

Lemma insert_by_count_descending (e : string * nat) (l : list (string * nat)) :
  descending_counts l -> descending_counts (insert_by_count e l).
Proof.
  unfold descending_counts. induction l as [|e' l IH]; simpl; intros H.
  - repeat constructor.
  - destruct (Nat.leb_spec (snd e') (snd e)).
    + constructor; [assumption | now constructor].
    + inversion H as [|? ? Hl Hhd]; subst. constructor; [now apply IH|].
      destruct l as [|e'' l]; simpl.
      * constructor. lia.
      * destruct (snd e'' <=? snd e)%nat; constructor; [lia|].
        now inversion Hhd.
Qed.

Lemma occurrences_positive (k : string) (s : list string) :
  (0 < occurrences k s)%nat <-> In k s.
Proof.
  unfold occurrences. induction s as [|x s IH]; simpl; [split; [lia | tauto]|].
  destruct (String.eqb_spec k x) as [-> | N]; simpl.
  - split; [now left | lia].
  - rewrite IH. split; [now right|]. intros [E | H]; [congruence | assumption].
Qed.

(** X8.  The counts behind the pie chart ([value_counts()]): each value
    that occurs in the column has exactly one line, the line holds the
    number of rows with that value, the counts add up to the number of
    rows, and the lines come with the largest count first. *)
Theorem value_counts_count_every_row (s : list string) :
  NoDup (map fst (value_counts s)) /\
  (forall k n, In (k, n) (value_counts s) <->
               In k s /\ n = occurrences k s) /\
  list_sum (map snd (value_counts s)) = List.length s /\
  descending_counts (value_counts s).
Proof.
  pose proof (value_counts_perm s) as P.
  split; [|split; [|split]].
  - apply (Permutation_NoDup (l := map fst (fold_left (fun acc k => count_up k acc) s []))).
    + apply Permutation_map. now symmetry.
    + apply counts_NoDup.
  - intros k n.
    assert (Hiff : In (k, n) (value_counts s) <->
                   lookup String.eqb k
                     (fold_left (fun acc k => count_up k acc) s []) = Some n).
    { rewrite <- (lookup_In String.eqb String.leb String.eqb_eq _ (counts_NoDup s)).
      split; apply Permutation_in; [assumption | now symmetry]. }
    rewrite Hiff, lookup_counts. split.
    + destruct (occurrences k s) as [|m] eqn:E; [discriminate|].
      intros [= <-]. split; [|reflexivity].
      apply occurrences_positive. lia.
    + intros [Hk ->]. apply occurrences_positive in Hk.
      destruct (occurrences k s); [lia | reflexivity].
  - rewrite (Permutation_map snd P). clear P.
    induction s as [|x s IH] using rev_ind; [reflexivity|].
    rewrite counts_snoc, count_up_total, IH, length_app. simpl. lia.
  - clear P. unfold value_counts.
    induction (fold_left (fun acc k => count_up k acc) s []) as [|e l IH]; simpl.
    + constructor.
    + now apply insert_by_count_descending.
Qed.

(** ** The headline numbers *)

Lemma overall_rate_run (v : DataFrame) :
  overall_rate v =
  if (0 <? len v)%nat
  then Some (Qred (Qred (Z.of_nat (List.length (yes_rows v))
                         # Pos.of_nat (len v)) * 100))
  else None.
Proof. unfold overall_rate. now rewrite scalar_kpis_run. Qed.

(** X9.  The headline numbers are consistent on every view: the attrition
    count never exceeds the number of employees, the rate is a number
    between 0 and 100 whenever the view has rows, and it is the N/A
    sentinel exactly when the view has none. *)
Theorem headline_numbers_are_consistent (v : DataFrame) :
  exists k,
    scalar_kpis v = ([], Done (k, v)) /\
    (attrition_count k <= total_employees k)%nat /\
    (forall q, attrition_rate k = Some q -> (0 <= q <= 100)%Q) /\
    (attrition_rate k = None <-> rows v = []) /\
    (attrition_count k = total_employees k <->
     forall r : Row, In r (rows v) -> Attrition r = "Yes").
Proof.
  eexists. split; [apply scalar_kpis_run|].
  cbn [attrition_count total_employees attrition_rate].
  assert (Hle : (List.length (yes_rows v) <= len v)%nat)
    by apply filter_length_le.
  split; [assumption|]. split; [|split].
  - intros q. destruct (Nat.ltb_spec 0 (len v)) as [Hpos|]; [|discriminate].
    intros [= <-]. apply rate_between_0_and_100; [assumption | lia].
  - unfold len. destruct (rows v) as [|r l]; simpl; split;
      try reflexivity; try discriminate.
  - unfold yes_rows, len. split.
    + intros E r Hr.
      assert (F : filter (fun r : Row => String.eqb (Attrition r) "Yes") (rows v)
                  = rows v).
      { clear Hle r Hr. revert E. induction (rows v) as [|r l IH]; simpl;
          [reflexivity|].
        pose proof (filter_length_le
                      (fun r : Row => String.eqb (Attrition r) "Yes") l).
        destruct (String.eqb (Attrition r) "Yes"); simpl; intros E;
          [f_equal; apply IH; lia | lia]. }
      rewrite <- F in Hr. apply filter_In in Hr.
      now apply String.eqb_eq.
    + intros H. f_equal. apply filter_all. intros r Hr.
      apply String.eqb_eq. now apply H.
Qed.

Lemma overall_rate_is_mean (v : DataFrame) :
  (forall r, In r (rows v) -> Attrition_Binary r = yes_to_one (Attrition r)) ->
  times100 (mean (int_col Attrition_Binary v)) = overall_rate v.
Proof.
  intros Hloaded. pose proof (sum_attrition_binary (rows v) Hloaded) as Hsum.
  rewrite overall_rate_run. unfold int_col, len, yes_rows in *.
  destruct (rows v) as [|r l] eqn:R; [reflexivity|].
  cbn [map mean times100]. rewrite <- R in *.
  replace (Attrition_Binary r :: map Attrition_Binary l)
    with (map Attrition_Binary (rows v)) by now rewrite R.
  rewrite Hsum, length_map.
  destruct (Nat.ltb_spec 0 (List.length (rows v))) as [|H0]; [reflexivity|].
  rewrite R in H0. simpl in H0. lia.
Qed.

(** X10.  The two encodings of attrition agree on every view built by the
    loader and the filter: each row has Attrition_Binary 1 if its Attrition
    is Yes and 0 otherwise, the sum of the column is the attrition count,
    and the headline rate is mean(Attrition_Binary) x 100 over the whole
    view. *)
Theorem headline_rate_is_mean_of_binary (table : list Employee) (crit : FilterCriteria) :
  (forall r, In r (rows (apply_filters (add_attrition_binary table) crit)) ->
     Attrition_Binary r = yes_to_one (Attrition r)) /\
  sum (int_col Attrition_Binary (apply_filters (add_attrition_binary table) crit)) =
    Z.of_nat (List.length (yes_rows (apply_filters (add_attrition_binary table) crit))) /\
  times100 (mean (int_col Attrition_Binary
                    (apply_filters (add_attrition_binary table) crit))) =
    overall_rate (apply_filters (add_attrition_binary table) crit).
Proof.
  set (v := apply_filters (add_attrition_binary table) crit).
  assert (Hloaded : forall r, In r (rows v) ->
                              Attrition_Binary r = yes_to_one (Attrition r))
    by apply loaded_view.
  assert (Hsum := sum_attrition_binary (rows v) Hloaded).
  split; [assumption|]. split; [assumption|].
  now apply overall_rate_is_mean.
Qed.

(** ** The page of a view with rows *)

Lemma apply_transform_eq (observed : bool) (t : transform) (v : DataFrame) :
  apply_transform observed t v =
  ([], Done (result_of observed t v, view_after observed t v)).
Proof.
  destruct (transform_runs observed t v) as [r Hr].
  unfold result_of. now rewrite (output_of_run _ _ _ _ _ Hr).
Qed.

Lemma bind_done {A B : Type} (m : Script A) (k : A -> Script B)
    (v v' : DataFrame) (log : list event) (a : A) :
  m v = (log, Done (a, v')) ->
  bind m k v = (log ++ fst (k a v'), snd (k a v')).
Proof.
  unfold bind. intros ->. now destruct (k a v').
Qed.

Lemma bind_raised {A B : Type} (m : Script A) (k : A -> Script B)
    (v : DataFrame) (log : list event) (e : exn) :
  m v = (log, Raised e) -> bind m k v = (log, Raised e).
Proof. unfold bind. now intros ->. Qed.

Lemma plot_discrete (observed : bool) (fig : string) (t : transform) (v : DataFrame) :
  t <> YearsAtCompanyBinned ->
  plot observed fig t Discrete v = ([chart observed fig t v], Done (tt, v)).
Proof.
  intros N. unfold plot.
  rewrite (bind_done _ _ _ _ _ _ (apply_transform_eq observed t v)).
  now rewrite (view_after_other observed t v N).
Qed.

Lemma plot_sequential (observed : bool) (fig : string) (t : transform)
    (name : string) (v : DataFrame) :
  t <> YearsAtCompanyBinned -> has_scale name = true ->
  plot observed fig t (Sequential name) v =
  ([chart observed fig t v], Done (tt, v)).
Proof.
  intros N H. unfold plot.
  rewrite (bind_done _ _ _ _ _ _ (apply_transform_eq observed t v)).
  rewrite (view_after_other observed t v N). cbn beta.
  unfold color_argument. rewrite H. reflexivity.
Qed.

(** A figure whose colour scale does not exist is never written: the
    aggregation has run, and the lookup raises before the figure is built. *)
Lemma plot_missing_scale (observed : bool) (fig : string) (t : transform)
    (name : string) (v : DataFrame) :
  has_scale name = false ->
  plot observed fig t (Sequential name) v = ([], Raised AttributeError).
Proof.
  intros H. unfold plot.
  rewrite (bind_done _ _ _ _ _ _ (apply_transform_eq observed t v)). cbn beta.
  unfold color_argument. rewrite H. reflexivity.
Qed.

Lemma plot_frame_run (fig : string) (v : DataFrame) :
  plot_frame fig v = ([st_plotly_frame fig v], Done (tt, v)).
Proof. reflexivity. Qed.

Lemma kpi_row_run (v : DataFrame) :
  kpi_row v =
  ([ st_kpi "Total Employees" (KCount (len v));
     st_kpi "Attrition Count" (KCount (List.length (yes_rows v)));
     st_kpi "Attrition Rate (%)"
       match overall_rate v with
       | Some q => KRate q
       | None => KNotAvailable
       end ], Done (tt, v)).
Proof.
  rewrite overall_rate_run. unfold kpi_row, bind.
  now rewrite scalar_kpis_run.
Qed.

Lemma tab1_run (observed : bool) (v : DataFrame) :
  tab1 observed v =
  ([ st_kpi "Total Employees" (KCount (len v));
     st_kpi "Attrition Count" (KCount (List.length (yes_rows v)));
     st_kpi "Attrition Rate (%)"
       match overall_rate v with
       | Some q => KRate q
       | None => KNotAvailable
       end;
     chart observed "fig1" AttritionCounts v;
     chart observed "fig2" (RateBy Col.Department) v;
     chart observed "fig3" (RateBy Col.JobRole) v ], Done (tt, v)).
Proof.
  unfold tab1.
  repeat (erewrite bind_done;
          [ cbn beta
          | first [ apply kpi_row_run
                  | apply plot_frame_run
                  | apply plot_discrete; discriminate
                  | apply plot_sequential; [discriminate | reflexivity] ] ]).
  rewrite plot_sequential by (discriminate || reflexivity).
  cbn [fst snd app]. reflexivity.
Qed.

Lemma tab2_run (observed : bool) (v : DataFrame) :
  tab2 observed v =
  ([ st_plotly_frame "fig4_1" v;
     st_plotly_frame "fig4_2" v;
     chart observed "fig5" (RateBy Col.Gender) v;
     chart observed "fig6" (RateBy Col.MaritalStatus) v;
     chart observed "fig7" (RateBy Col.EducationField) v;
     chart observed "fig8" (RateBy Col.Education) v ], Done (tt, v)).
Proof.
  unfold tab2.
  repeat (erewrite bind_done;
          [ cbn beta
          | first [ apply plot_frame_run
                  | apply plot_discrete; discriminate
                  | apply plot_sequential; [discriminate | reflexivity] ] ]).
  rewrite plot_sequential by (discriminate || reflexivity).
  cbn [fst snd app]. reflexivity.
Qed.

(** The third tab ends at figure 14: lines 313-317 have run, and
    [px.colors.sequential.Thermal] of line 321 raises. *)
Lemma tab3_run (observed : bool) (v : DataFrame) :
  tab3 observed v =
  ([ st_plotly_frame "fig9_1" v;
     st_plotly_frame "fig9_2" v;
     chart observed "fig10" (RateBy Col.JobLevel) v;
     chart observed "fig11" (RateBy Col.BusinessTravel) v;
     chart observed "fig12" (RateBy Col.OverTime) v;
     st_plotly_frame "fig13" v ], Raised AttributeError).
Proof.
  unfold tab3.
  repeat (erewrite bind_done;
          [ cbn beta
          | first [ apply plot_frame_run
                  | apply plot_sequential; [discriminate | reflexivity] ] ]).
  erewrite bind_raised by (apply plot_missing_scale; reflexivity).
  cbn [fst snd app]. reflexivity.
Qed.

Lemma tabs_run (observed : bool) (v : DataFrame) :
  tabs observed v = (page_log observed v, Raised AttributeError).
Proof.
  unfold tabs.
  rewrite (bind_done _ _ _ _ _ _ (tab1_run observed v)). cbn beta.
  rewrite (bind_done _ _ _ _ _ _ (tab2_run observed v)). cbn beta.
  rewrite (bind_raised _ _ _ _ _ (tab3_run observed v)).
  cbn [fst snd app]. reflexivity.
Qed.

Lemma dashboard_run (observed : bool) (df : DataFrame) (c : FilterCriteria) :
  rows (apply_filters df c) <> [] ->
  dashboard observed df c =
  (page_log observed (apply_filters df c), Raised AttributeError).
Proof.
  intros Hne. unfold dashboard, empty.
  destruct (rows (apply_filters df c)) as [|r l]; [contradiction|].
  cbv zeta. now rewrite tabs_run.
Qed.

Lemma overall_rate_of_rows (v : DataFrame) :
  rows v <> [] -> exists q, overall_rate v = Some q.
Proof.
  intros Hne. rewrite overall_rate_run.
  destruct (Nat.ltb_spec 0 (len v)) as [|H0]; [eexists; reflexivity|].
  unfold len in H0. destruct (rows v); [contradiction | simpl in H0; lia].
Qed.

(** X11.  A run on a readable file, a sidebar that builds and a view with
    rows never reaches its end: it writes eighteen items in the order of
    the script (three headline numbers and the fifteen figures up to
    figure 13) and then raises [AttributeError] at line 321, where the
    colour scale [px.colors.sequential.Thermal] is looked up: the module
    spells it [thermal].  Figure 14 to figure 24 and the table of the last
    tab are never written.  The scales [Dense] (line 345) and [Pubu]
    (line 409) do not exist either ([dense], [PuBu]), so a figure coloured
    by one of the three is never written on any view.  What is written is
    fed from the view as filtered, and the rate is shown as a number,
    never as N/A: the branch of line 143 cannot be reached behind the guard
    of line 111. *)
Theorem run_ends_at_figure_14 (observed : bool)
    (read_csv : string -> read_csv_result) (table : list Employee)
    (session : option FilterCriteria) (defaults : FilterCriteria) :
  read_csv csv_file_path = CsvTable table ->
  default_criteria (add_attrition_binary table) = inr defaults ->
  rows (apply_filters (add_attrition_binary table) (criteria_of session defaults))
    <> [] ->
  app observed read_csv session =
    (page_log observed
       (apply_filters (add_attrition_binary table) (criteria_of session defaults)),
     Raised AttributeError) /\
  List.length (fst (app observed read_csv session)) = 18%nat /\
  (forall title, ~ In (st_kpi title KNotAvailable) (fst (app observed read_csv session))) /\
  (forall msg, ~ In (st_warning msg) (fst (app observed read_csv session)) /\
               ~ In (st_error msg) (fst (app observed read_csv session))) /\
  (forall data, ~ In (st_dataframe data) (fst (app observed read_csv session))) /\
  (forall fig data,
     In (st_plotly_chart fig data) (fst (app observed read_csv session)) ->
     In fig figures_written) /\
  (forall fig data,
     In (st_plotly_frame fig data) (fst (app observed read_csv session)) ->
     In fig figures_written) /\
  (forall fig data,
     In (st_plotly_frame fig data) (fst (app observed read_csv session)) ->
     data = apply_filters (add_attrition_binary table) (criteria_of session defaults)) /\
  (forall fig t v name, In name ["Thermal"; "Dense"; "Pubu"] ->
     plot observed fig t (Sequential name) v = ([], Raised AttributeError)) /\
  has_scale "thermal" = true /\ has_scale "dense" = true /\ has_scale "PuBu" = true.
Proof.
  intros Hread Hdef Hne.
  assert (E : app observed read_csv session =
              (page_log observed
                 (apply_filters (add_attrition_binary table)
                    (criteria_of session defaults)),
               Raised AttributeError)).
  { unfold app, load_data. rewrite Hread, Hdef.
    now rewrite (dashboard_run observed _ _ Hne). }
  rewrite E. cbn [fst]. split; [reflexivity|]. split; [reflexivity|].
  destruct (overall_rate_of_rows _ Hne) as [q Hq].
  unfold page_log, chart, figures_written. rewrite Hq.
  split; [|split; [|split; [|split; [|split; [|split; [|split]]]]]].
  - intros title H. simpl in H.
    repeat (destruct H as [H | H]; [discriminate H|]). exact H.
  - intros msg. split; intros H; simpl in H;
      repeat (destruct H as [H | H]; [discriminate H|]); exact H.
  - intros data H. simpl in H.
    repeat (destruct H as [H | H]; [discriminate H|]). exact H.
  - intros fig data H. simpl in H.
    repeat (destruct H as [H | H];
            [first [discriminate H | injection H as <- _; simpl; tauto]|]).
    contradiction.
  - intros fig data H. simpl in H.
    repeat (destruct H as [H | H];
            [first [discriminate H | injection H as <- _; simpl; tauto]|]).
    contradiction.
  - intros fig data H. simpl in H.
    repeat (destruct H as [H | H];
            [first [discriminate H | now injection H as _ <-]|]).
    contradiction.
  - intros fig t v name Hname. apply plot_missing_scale.
    simpl in Hname. destruct Hname as [<- | [<- | [<- | []]]]; reflexivity.
  - repeat split.
Qed.

Example run_three_rows :
  app true three_rows_csv None =
    (page_log true
       (apply_filters (add_attrition_binary three_rows) (criteria_of None select_all)),
     Raised AttributeError) /\
  List.length (fst (app true three_rows_csv None)) = 18%nat /\
  (forall title, ~ In (st_kpi title KNotAvailable) (fst (app true three_rows_csv None))) /\
  (forall msg, ~ In (st_warning msg) (fst (app true three_rows_csv None)) /\
               ~ In (st_error msg) (fst (app true three_rows_csv None))) /\
  (forall data, ~ In (st_dataframe data) (fst (app true three_rows_csv None))) /\
  (forall fig data,
     In (st_plotly_chart fig data) (fst (app true three_rows_csv None)) ->
     In fig figures_written) /\
  (forall fig data,
     In (st_plotly_frame fig data) (fst (app true three_rows_csv None)) ->
     In fig figures_written) /\
  (forall fig data,
     In (st_plotly_frame fig data) (fst (app true three_rows_csv None)) ->
     data = apply_filters (add_attrition_binary three_rows)
              (criteria_of None select_all)) /\
  (forall fig t v name, In name ["Thermal"; "Dense"; "Pubu"] ->
     plot true fig t (Sequential name) v = ([], Raised AttributeError)) /\
  has_scale "thermal" = true /\ has_scale "dense" = true /\ has_scale "PuBu" = true.
Proof.
  apply (run_ends_at_figure_14 true three_rows_csv three_rows None select_all).
  - reflexivity.
  - reflexivity.
  - intros H. vm_compute in H. discriminate H.
Defined.

(** ** The bins and the rows *)

Lemma filter_cons_length {A : Type} (p : A -> bool) (x : A) (l : list A) :
  List.length (filter p (x :: l)) =
  ((if p x then 1 else 0) + List.length (filter p l))%nat.
Proof. simpl. now destruct (p x). Qed.

Lemma list_sum_map_add {A : Type} (f g : A -> nat) (l : list A) :
  list_sum (map (fun x => (f x + g x)%nat) l) =
  (list_sum (map f l) + list_sum (map g l))%nat.
Proof.
  induction l as [|x l IH]; simpl; [reflexivity | rewrite IH; lia].
Qed.

Lemma one_bin_per_tenure (x : Z) :
  list_sum
    (map (fun lbl => if match cut bins labels x with
                        | Some l => String.eqb l lbl
                        | None => false
                        end then 1%nat else 0%nat)
         ["<1"; "1-3"; "3-5"; "5-10"; "10-15"; "15-20"; "20-30"; "30+"]) =
  if (0 <=? x) && (x <? 40) then 1%nat else 0%nat.
Proof.
  ten_cases (cut_cases x);
    match goal with
    | |- _ = if ?b then _ else _ =>
        first [ replace b with true
                  by (symmetry; apply andb_true_iff;
                      rewrite Z.leb_le, Z.ltb_lt; lia)
              | replace b with false
                  by (symmetry; apply andb_false_iff;
                      rewrite Z.leb_gt, Z.ltb_ge; lia) ]
    end; reflexivity.
Qed.

Lemma bin_sizes_add_up (l : list Row) :
  list_sum
    (map (fun lbl =>
            List.length
              (filter (fun r : Row =>
                         match cut bins labels (YearsAtCompany r) with
                         | Some k => String.eqb k lbl
                         | None => false
                         end) l))
         ["<1"; "1-3"; "3-5"; "5-10"; "10-15"; "15-20"; "20-30"; "30+"]) =
  List.length (filter within_bins l).
Proof.
  induction l as [|r l IH]; [reflexivity|].
  rewrite (filter_cons_length within_bins), <- IH.
  unfold within_bins at 1. rewrite <- one_bin_per_tenure.
  rewrite <- list_sum_map_add. f_equal. apply map_ext. intros lbl.
  apply filter_cons_length.
Qed.

(** X12.  The bins partition the rows whose tenure lies in [0,40): each
    such row is counted under exactly one of the eight labels, a row
    outside is counted under none, and the sizes of the eight bins add up
    to the number of rows in range.  With [observed=False] the grouped table
    lists all eight labels in bin order; with [observed=True] it lists, in
    the same order, the labels whose bin holds a row. *)
Theorem bins_partition_rows_in_range (observed : bool) (v : DataFrame) :
  (exists t,
     output_of observed YearsAtCompanyBinned v = ([], Done (BinnedRates t)) /\
     map fst t =
       if observed
       then filter (fun lbl => match rows_in_bin lbl v with
                               | [] => false
                               | _ :: _ => true
                               end) labels
       else labels) /\
  list_sum (map (fun lbl => List.length (rows_in_bin lbl v)) labels) =
    List.length (filter within_bins (rows v)) /\
  (forall r, In r (rows v) -> within_bins r = true ->
     exists lbl, In lbl labels /\ In r (rows_in_bin lbl v) /\
                 forall lbl', In r (rows_in_bin lbl' v) -> lbl' = lbl) /\
  (forall r, In r (rows v) -> within_bins r = false ->
     forall lbl, ~ In r (rows_in_bin lbl v)).
Proof.
  split; [|split; [|split]].
  - eexists. split; [apply binned_output|].
    rewrite with_rate_keys, map_map. cbn [fst]. rewrite map_id.
    destruct observed; [|reflexivity].
    apply filter_ext. intros lbl. rewrite is_number_mean.
    now destruct (rows_in_bin lbl v).
  - apply bin_sizes_add_up.
  - intros r Hr Hw. unfold within_bins in Hw.
    destruct (cut bins labels (YearsAtCompany r)) as [lbl|] eqn:E.
    + exists lbl. split; [now apply (cut_label (YearsAtCompany r))|].
      split; [now apply in_rows_in_bin|].
      intros lbl' H. apply in_rows_in_bin in H. destruct H as [_ H].
      congruence.
    + exfalso. apply andb_true_iff in Hw. rewrite Z.leb_le, Z.ltb_lt in Hw.
      apply (proj2 (proj2 (proj2 (proj2 (proj2 (proj2 (proj2 (proj2
               (cut_intervals (YearsAtCompany r)))))))))) in E. lia.
  - intros r Hr Hw lbl H. apply in_rows_in_bin in H. destruct H as [_ H].
    apply cut_within_bins in H. unfold within_bins in Hw. congruence.
Qed.

(** ** Frames keep one cell per row in every column *)

Lemma take_length {A B : Type} (l : list A) (l' : list B) (mask : list bool) :
  List.length l = List.length l' ->
  List.length (take l mask) = List.length (take l' mask).
Proof.
  revert l l'. induction mask as [|b mask IH]; intros [|x l] [|y l'] H;
    try reflexivity; try discriminate H.
  simpl in H. simpl. destruct b; simpl; [f_equal|]; apply IH; lia.
Qed.

(** Every column of a frame has one cell per row, at each stage of
    the script: in the frame the loader returns, in the filtered view of a
    frame that has the property, and in the view as any transform leaves it.
    The binned column that line 315 writes has one cell per row of the
    view, whatever the view held before. *)
Theorem frames_keep_one_cell_per_row (observed : bool) (table : list Employee)
    (df v : DataFrame) (c : FilterCriteria) (t : transform) :
  well_formed (add_attrition_binary table) /\
  (well_formed df -> well_formed (apply_filters df c)) /\
  (well_formed v -> well_formed (view_after observed t v)) /\
  well_formed (view_after observed YearsAtCompanyBinned v) /\
  len (add_attrition_binary table) = List.length table.
Proof.
  assert (Hb : well_formed (view_after observed YearsAtCompanyBinned v)).
  { rewrite view_after_binned. unfold well_formed, assign_binned, len, pd_cut, int_col.
    cbn [YearsAtCompany_Binned rows]. intros col [= <-]. now rewrite !length_map. }
  split; [|split; [|split; [|split]]].
  - intros col H. discriminate H.
  - intros Hwf col H. unfold apply_filters, boolean_index, len in *.
    cbn [YearsAtCompany_Binned rows] in *.
    destruct (YearsAtCompany_Binned df) as [col0|] eqn:E; [|discriminate H].
    injection H as <-. apply take_length. now apply Hwf.
  - intros Hwf. destruct t as [k | | | |]; try assumption.
    all: rewrite view_after_other by discriminate; assumption.
  - assumption.
  - unfold len, add_attrition_binary. cbn [rows]. apply length_map.
Qed.

(** ** Filtering on the attrition status itself *)

Lemma sum_constant (a : Z) (g : list Z) :
  (forall y, In y g -> y = a) -> sum g = a * Z.of_nat (List.length g).
Proof.
  unfold sum. induction g as [|y g IH]; intros H; [simpl; lia|].
  cbn [fold_right List.length]. rewrite IH by (intros z Hz; apply H; now right).
  rewrite (H y (or_introl eq_refl)). lia.
Qed.

Lemma mean_constant (a : Z) (g : list Z) :
  g <> [] -> (forall y, In y g -> y = a) -> mean g = Some (Qred (inject_Z a)).
Proof.
  intros Hne H. pose proof (sum_constant a g H) as Hs.
  destruct g as [|y g]; [contradiction|].
  cbn [mean]. f_equal. apply Qred_complete.
  unfold Qeq, inject_Z. cbn [Qnum Qden].
  rewrite Hs, Zpos_of_nat by (simpl; lia). lia.
Qed.

Lemma rates_of_constant_binary (a : Z) (c : Col.t) (v : DataFrame) :
  (forall r, In r (rows v) -> Attrition_Binary r = a) ->
  forall k x, In (k, x) (rate_by_dimension c v) ->
              x = times100 (Some (Qred (inject_Z a))).
Proof.
  intros H k x Hin. apply in_rate_by_dimension in Hin.
  destruct Hin as [[r [Hr Hk]] ->]. unfold group_rate. f_equal.
  apply mean_constant.
  - intros Hnil.
    assert (Hin : In (Attrition_Binary r) (map Attrition_Binary (rows_holding c k v))).
    { apply in_map. unfold rows_holding. apply filter_In.
      split; [assumption | now apply value_eqb_eq]. }
    rewrite Hnil in Hin. contradiction.
  - intros y Hy. apply in_map_iff in Hy. destruct Hy as [r' [<- Hr']].
    unfold rows_holding in Hr'. apply filter_In in Hr'. now apply H.
Qed.

Lemma overall_of_constant_binary (a : Z) (v : DataFrame) :
  (forall r, In r (rows v) -> Attrition_Binary r = yes_to_one (Attrition r)) ->
  (forall r, In r (rows v) -> Attrition_Binary r = a) ->
  rows v <> [] ->
  overall_rate v = times100 (Some (Qred (inject_Z a))).
Proof.
  intros Hloaded H Hne. rewrite <- (overall_rate_is_mean v Hloaded). f_equal.
  unfold int_col. apply mean_constant.
  - destruct (rows v); [contradiction | discriminate].
  - intros y Hy. apply in_map_iff in Hy. destruct Hy as [r [<- Hr]]. now apply H.
Qed.

(** X13.  The Attrition multiselect filters the very column the rates are
    computed from.  When it selects Yes alone, the view holds leavers only:
    every rate of every rate-by-dimension chart is exactly 100, and so is
    the headline rate.  When Yes is not selected, every rate is exactly 0. *)
Theorem rates_under_an_attrition_filter (table : list Employee)
    (crit : FilterCriteria) (c : Col.t) :
  ((forall x, In x (selected_attrition crit) -> x = "Yes") ->
   (forall k x,
      In (k, x) (rate_by_dimension c (apply_filters (add_attrition_binary table) crit)) ->
      x = Some 100%Q) /\
   (rows (apply_filters (add_attrition_binary table) crit) <> [] ->
    overall_rate (apply_filters (add_attrition_binary table) crit) = Some 100%Q)) /\
  (~ In "Yes" (selected_attrition crit) ->
   (forall k x,
      In (k, x) (rate_by_dimension c (apply_filters (add_attrition_binary table) crit)) ->
      x = Some 0%Q) /\
   (rows (apply_filters (add_attrition_binary table) crit) <> [] ->
    overall_rate (apply_filters (add_attrition_binary table) crit) = Some 0%Q)).
Proof.
  set (v := apply_filters (add_attrition_binary table) crit).
  assert (Hloaded : forall r, In r (rows v) ->
                              Attrition_Binary r = yes_to_one (Attrition r))
    by apply loaded_view.
  assert (Hsel : forall r, In r (rows v) -> In (Attrition r) (selected_attrition crit)).
  { intros r Hr. unfold v in Hr. rewrite apply_filters_rows in Hr.
    apply filter_In in Hr. destruct Hr as [_ Hp].
    apply passes_satisfies in Hp. apply Hp. }
  split.
  - intros Hyes.
    assert (H1 : forall r, In r (rows v) -> Attrition_Binary r = 1).
    { intros r Hr. rewrite (Hloaded r Hr), (Hyes _ (Hsel r Hr)). reflexivity. }
    split.
    + intros k x Hin. now apply (rates_of_constant_binary 1 c v H1 k x).
    + intros Hne. now apply (overall_of_constant_binary 1 v Hloaded H1).
  - intros Hno.
    assert (H0 : forall r, In r (rows v) -> Attrition_Binary r = 0).
    { intros r Hr. rewrite (Hloaded r Hr).
      destruct (yes_to_one_cases (Attrition r)) as [[E _] | [_ E]]; [|assumption].
      exfalso. apply Hno. rewrite <- E. now apply Hsel. }
    split.
    + intros k x Hin. now apply (rates_of_constant_binary 0 c v H0 k x).
    + intros Hne. now apply (overall_of_constant_binary 0 v Hloaded H0).
Qed.

Example leavers_only_three_rows :
  (forall k x,
     In (k, x) (rate_by_dimension Col.Department
                  (apply_filters (add_attrition_binary three_rows) only_yes)) ->
     x = Some 100%Q) /\
  (rows (apply_filters (add_attrition_binary three_rows) only_yes) <> [] ->
   overall_rate (apply_filters (add_attrition_binary three_rows) only_yes)
   = Some 100%Q).
Proof.
  apply (proj1 (rates_under_an_attrition_filter three_rows only_yes Col.Department)).
  intros x [<- | []]. reflexivity.
Defined.
